(** * MaidSafe-Routing: the request handlers of [Service]

    A shallow embedding of [src/maidsafe/routing/service.cc].  The four
    handlers ([Ping], [Connect], [FindNodes], [ConnectSuccess]) are C++
    [void] member functions that mutate the envelope they receive by
    reference and talk to three collaborators held by reference
    ([routing_table_], [non_routing_table_], [network_]).  They are
    embedded as programs of a small state monad whose state holds the
    envelope, the three collaborators and the list of calls made on them.

    The collaborators, the wire codec and [NodeId] are declared outside the
    sources at hand; they enter as interfaces (type classes), so every
    general theorem holds for every implementation of them.

    Conventions of the embedding:
    - a handler ends by falling off its last statement, by [return;], or
      by reading [message.data(0)] of an envelope without data, which the
      C++ leaves undefined ([Fault]);
    - [LOG] statements are left out; they only read the local ids;
    - [assert]s are left out, as in a build with [NDEBUG];
    - [GetTimeStamp()] reads a clock that is part of the state. *)

From Stdlib Require Import ZArith NArith List String Ascii Bool Lia DecimalString.
Import ListNotations.
Local Open Scope string_scope.
Local Open Scope list_scope.
Local Open Scope Z_scope.

Set Implicit Arguments.

(** A protobuf [bytes] field, a [std::string]. *)
Definition bytes := string.

(** Accessor of an optional protobuf field: the value when the field is
    present, the default otherwise. *)
Definition value_or {A : Type} (d : A) (o : option A) : A :=
  match o with Some a => a | None => d end.

Definition has {A : Type} (o : option A) : bool :=
  match o with Some _ => true | None => false end.

(** ** Fixed-width integers *)

(** [uint32_t] subtraction. *)
Definition uint32_sub (a b : Z) : Z := (a - b) mod 2 ^ 32.

(** [static_cast<uint16_t>]. *)
Definition static_cast_uint16 (a : Z) : Z := a mod 2 ^ 16.

(** ** Identifiers, endpoints *)

(** [maidsafe::NodeId] wraps the raw string of an identifier. *)
Record NodeId := mkNodeId { raw_id : bytes }.

(** [NodeId::String()]. *)
Definition NodeId_String (n : NodeId) : bytes := raw_id n.

(** The operations of [NodeId] that the handlers use; [NodeId_of] is the
    constructor [NodeId(const std::string&)]. *)
Class NodeIdOps := {
  NodeId_of : bytes -> NodeId;
  Empty : NodeId -> bool;
  IsValid : NodeId -> bool
}.

(** [boost::asio::ip::address]: the family and the address as a number. *)
Inductive Address :=
| address_v4 (a : Z)
| address_v6 (a : Z).

Definition is_unspecified (a : Address) : bool :=
  match a with
  | address_v4 n => n =? 0
  | address_v6 n => n =? 0
  end.

(** [boost::asio::ip::udp::endpoint]. *)
Record Endpoint := mkEndpoint { address : Address; port : Z }.

(** [rudp::EndpointPair]. *)
Record EndpointPair := mkEndpointPair { local : Endpoint; external : Endpoint }.

(** [rudp::NatType]. *)
Inductive NatType := kSymmetric | kOther | kUnknown.

(** [rudp::kSuccess]. *)
Definition kSuccess : Z := 0.

(** [NodeInfo], with the two members the handlers assign. *)
Record NodeInfo := mkNodeInfo { node_id : NodeId; connection_id : NodeId }.

(** ** Protobuf messages

    The records list the fields that [service.cc] reads or writes.  A field
    whose presence the code tests or clears is an [option]. *)
Module protobuf.

Module Message.
Record t := mk {
  source_id : option bytes;
  destination_id : option bytes;
  data : list bytes;
  signature : option bytes;
  request : option bool;
  direct : option bool;
  client_node : option bool;
  replication : option Z;
  hops_to_live : option Z;
  route_history : list bytes
}.

(** [Message::Clear()]: every field back to absent. *)
Definition Clear : t := mk None None [] None None None None None None [].

Definition set_source_id (v : bytes) (m : t) : t :=
  mk (Some v) (destination_id m) (data m) (signature m) (request m)
     (direct m) (client_node m) (replication m) (hops_to_live m)
     (route_history m).
Definition set_destination_id (v : bytes) (m : t) : t :=
  mk (source_id m) (Some v) (data m) (signature m) (request m)
     (direct m) (client_node m) (replication m) (hops_to_live m)
     (route_history m).
Definition clear_destination_id (m : t) : t :=
  mk (source_id m) None (data m) (signature m) (request m)
     (direct m) (client_node m) (replication m) (hops_to_live m)
     (route_history m).
Definition clear_data (m : t) : t :=
  mk (source_id m) (destination_id m) [] (signature m) (request m)
     (direct m) (client_node m) (replication m) (hops_to_live m)
     (route_history m).
Definition add_data (v : bytes) (m : t) : t :=
  mk (source_id m) (destination_id m) (data m ++ [v]) (signature m)
     (request m) (direct m) (client_node m) (replication m)
     (hops_to_live m) (route_history m).
Definition set_request (v : bool) (m : t) : t :=
  mk (source_id m) (destination_id m) (data m) (signature m) (Some v)
     (direct m) (client_node m) (replication m) (hops_to_live m)
     (route_history m).
Definition set_direct (v : bool) (m : t) : t :=
  mk (source_id m) (destination_id m) (data m) (signature m) (request m)
     (Some v) (client_node m) (replication m) (hops_to_live m)
     (route_history m).
Definition set_client_node (v : bool) (m : t) : t :=
  mk (source_id m) (destination_id m) (data m) (signature m) (request m)
     (direct m) (Some v) (replication m) (hops_to_live m)
     (route_history m).
Definition set_replication (v : Z) (m : t) : t :=
  mk (source_id m) (destination_id m) (data m) (signature m) (request m)
     (direct m) (client_node m) (Some v) (hops_to_live m)
     (route_history m).
Definition set_hops_to_live (v : Z) (m : t) : t :=
  mk (source_id m) (destination_id m) (data m) (signature m) (request m)
     (direct m) (client_node m) (replication m) (Some v)
     (route_history m).
Definition clear_route_history (m : t) : t :=
  mk (source_id m) (destination_id m) (data m) (signature m) (request m)
     (direct m) (client_node m) (replication m) (hops_to_live m) [].
End Message.

Module Endpoint.
Record t := mk { ip : bytes; port : Z }.
End Endpoint.

(** The contact block of a request, read through its accessors. *)
Module Contact.
Record t := mk {
  node_id : bytes;
  connection_id : bytes;
  public_endpoint : Endpoint.t;
  private_endpoint : Endpoint.t;
  nat_type : Z
}.
End Contact.

Module PingRequest.
Record t := mk { ping : bool; timestamp : Z }.
End PingRequest.

Module PingResponse.
Record t := mk {
  pong : option bool;
  original_request : option bytes;
  original_signature : option bytes;
  timestamp : option Z
}.
Definition empty : t := mk None None None None.
End PingResponse.

Module ConnectRequest.
Record t := mk { contact : Contact.t; timestamp : Z }.
End ConnectRequest.

Module ConnectResponse.
Record t := mk {
  answer : option bool;
  contact : option Contact.t;
  timestamp : option Z;
  original_request : option bytes;
  original_signature : option bytes
}.
Definition empty : t := mk None None None None None.
End ConnectResponse.

Module FindNodesRequest.
Record t := mk { num_nodes_requested : Z; target_node : bytes }.
End FindNodesRequest.

Module FindNodesResponse.
Record t := mk {
  nodes : list bytes;
  original_request : option bytes;
  original_signature : option bytes;
  timestamp : option Z
}.
Definition empty : t := mk [] None None None.
End FindNodesResponse.

Module ConnectSuccess.
Record t := mk { node_id : bytes; connection_id : bytes; requestor : bool }.
End ConnectSuccess.

End protobuf.

Definition Message : Type := protobuf.Message.t.

(** ** The collaborators of [Service], as interfaces *)

(** The wire codec: [ParseFromString] of the four request payloads and
    [SerializeAsString] of the three response payloads. *)
Class Codec := {
  ParsePingRequest : bytes -> option protobuf.PingRequest.t;
  ParseConnectRequest : bytes -> option protobuf.ConnectRequest.t;
  ParseFindNodesRequest : bytes -> option protobuf.FindNodesRequest.t;
  ParseConnectSuccess : bytes -> option protobuf.ConnectSuccess.t;
  SerializePingResponse : protobuf.PingResponse.t -> bytes;
  SerializeConnectResponse : protobuf.ConnectResponse.t -> bytes;
  SerializeFindNodesResponse : protobuf.FindNodesResponse.t -> bytes
}.

(** The free functions of [utils.h] and [rpcs.h] that the handlers call. *)
Class Utils := {
  GetEndpointFromProtobuf : protobuf.Endpoint.t -> Endpoint;
  SetProtobufEndpoint : Endpoint -> protobuf.Endpoint.t;
  NatTypeProtobuf : NatType -> Z;
  (** [rpcs::ConnectSuccessAcknoledgement(node_id, this_node_id,
      this_connection_id, requestor, close_ids, client_node)] *)
  ConnectSuccessAcknoledgement :
    NodeId -> NodeId -> NodeId -> bool -> list NodeId -> bool -> Message
}.

(** The static members of [Parameters] that the handlers read. *)
Class Parameters := {
  Parameters_hops_to_live : Z;
  Parameters_closest_nodes_size : Z
}.

(** [RoutingTable]: the local identity and the server-side table. *)
Class RoutingTableOps (RT : Type) := {
  kKeys_identity : RT -> bytes;
  kNodeId : RT -> NodeId;
  kConnectionId : RT -> NodeId;
  client_mode : RT -> bool;
  CheckNode : RT -> NodeInfo -> bool;
  GetNthClosestNode : RT -> NodeId -> Z -> NodeInfo;
  GetClosestNodes : RT -> NodeId -> Z -> list NodeId;
  AddPendingNode : RT -> NodeInfo -> RT
}.

(** [NonRoutingTable]: the client table; its [CheckNode] takes the
    candidate and the id of the furthest close node. *)
Class NonRoutingTableOps (NRT : Type) := {
  NonRoutingTable_CheckNode : NRT -> NodeInfo -> NodeId -> bool
}.

(** [NetworkUtils], the transport.  [GetAvailableEndpoint] returns its
    status with its two out-parameters; [AddToRudp] is the helper of
    [utils.h] that adds the connection. *)
Class NetworkOps (NET : Type) := {
  GetAvailableEndpoint :
    NET -> NodeId -> EndpointPair -> (Z * EndpointPair * NatType) * NET;
  AddToRudp :
    NET -> NodeId -> NodeId -> NodeId -> NodeId -> EndpointPair ->
    bool -> bool -> Z * NET;
  SendToDirect : NET -> Message -> NodeId -> NodeId -> NET
}.

(** A call made by a handler on one of the collaborators. *)
Inductive Call :=
| call_CheckNode (peer : NodeInfo)
| call_NonRoutingTable_CheckNode (peer : NodeInfo) (furthest_close_node_id : NodeId)
| call_GetNthClosestNode (target : NodeId) (n : Z)
| call_GetClosestNodes (target : NodeId) (n : Z)
| call_AddPendingNode (peer : NodeInfo)
| call_GetAvailableEndpoint (peer_connection_id : NodeId)
                            (peer_endpoint_pair : EndpointPair)
| call_AddToRudp (this_node_id this_connection_id peer_id peer_connection_id : NodeId)
                 (peer_endpoint_pair : EndpointPair) (requestor client : bool)
| call_SendToDirect (m : Message) (peer_id peer_connection_id : NodeId).

(** ** The state a handler runs in *)

(** How a statement ends: it falls through with a value, it executes
    [return;], or it reads [data(0)] of an envelope without data, which
    C++ leaves undefined. *)
Inductive Res (A : Type) :=
| Val (a : A)
| Returned
| Fault.
Arguments Returned {A}.
Arguments Fault {A}.

Section Model.

Context {RT NRT NET : Type}.

(** The envelope passed by reference, the three members of [Service], the
    clock read by [GetTimeStamp] and the calls made so far. *)
Record Ctx := mkCtx {
  message : Message;
  routing_table_ : RT;
  non_routing_table_ : NRT;
  network_ : NET;
  clock : Z;
  calls : list Call
}.

Definition with_message (m : Message) (s : Ctx) : Ctx :=
  mkCtx m (routing_table_ s) (non_routing_table_ s) (network_ s)
        (clock s) (calls s).
Definition with_routing_table (r : RT) (s : Ctx) : Ctx :=
  mkCtx (message s) r (non_routing_table_ s) (network_ s)
        (clock s) (calls s).
Definition with_network (n : NET) (s : Ctx) : Ctx :=
  mkCtx (message s) (routing_table_ s) (non_routing_table_ s) n
        (clock s) (calls s).
Definition log (c : Call) (s : Ctx) : Ctx :=
  mkCtx (message s) (routing_table_ s) (non_routing_table_ s) (network_ s)
        (clock s) (calls s ++ [c]).

Definition M (A : Type) := Ctx -> Res A * Ctx.

Definition ret {A} (a : A) : M A := fun s => (Val a, s).
Definition bind {A B} (m : M A) (k : A -> M B) : M B :=
  fun s =>
    match m s with
    | (Val a, s') => k a s'
    | (Returned, s') => (Returned, s')
    | (Fault, s') => (Fault, s')
    end.
Definition return_ {A} : M A := fun s => (Returned, s).
Definition gets {A} (f : Ctx -> A) : M A := fun s => (Val (f s), s).
Definition modify (f : Ctx -> Ctx) : M unit := fun s => (Val tt, f s).

(** [if (c) { body }] *)
Definition when_ (c : bool) (body : M unit) : M unit :=
  if c then body else ret tt.

End Model.

Arguments Ctx : clear implicits.

Declare Scope service_scope.
Delimit Scope service_scope with service.
Notation "x <- c1 ;; c2" := (bind c1 (fun x => c2))
  (at level 61, c1 at next level, right associativity) : service_scope.
Notation "c1 ;; c2" := (bind c1 (fun _ => c2))
  (at level 61, right associativity) : service_scope.

(** ** [Service]: the four handlers of [service.cc] *)

Module Service.
Section Handlers.

Context {RT NRT NET : Type}.
Context {node_id_ops : NodeIdOps} {codec : Codec} {utils : Utils}
        {parameters : Parameters}
        {routing_table_ops : RoutingTableOps RT}
        {non_routing_table_ops : NonRoutingTableOps NRT}
        {network_ops : NetworkOps NET}.

Local Open Scope service_scope.
Local Abbreviation M := (@M RT NRT NET).

(** *** Accessors and mutators of the envelope *)

Definition message_destination_id : M bytes :=
  gets (fun s => value_or "" (protobuf.Message.destination_id (message s))).
Definition message_source_id : M bytes :=
  gets (fun s => value_or "" (protobuf.Message.source_id (message s))).
Definition message_has_source_id : M bool :=
  gets (fun s => has (protobuf.Message.source_id (message s))).
Definition message_signature : M bytes :=
  gets (fun s => value_or "" (protobuf.Message.signature (message s))).
Definition message_client_node : M bool :=
  gets (fun s => value_or false (protobuf.Message.client_node (message s))).

(** [message.data(i)]: defined only below [data_size()]. *)
Definition message_data (i : nat) : M bytes :=
  fun s =>
    match nth_error (protobuf.Message.data (message s)) i with
    | Some d => (Val d, s)
    | None => (Fault, s)
    end.

Definition message_update (f : Message -> Message) : M unit :=
  modify (fun s => with_message (f (message s)) s).
Definition message_Clear : M unit :=
  modify (with_message protobuf.Message.Clear).

(** *** Reads of the local identity, the clock *)

Definition routing_table_kKeys_identity : M bytes :=
  gets (fun s => kKeys_identity (routing_table_ s)).
Definition routing_table_kNodeId : M NodeId :=
  gets (fun s => kNodeId (routing_table_ s)).
Definition routing_table_kConnectionId : M NodeId :=
  gets (fun s => kConnectionId (routing_table_ s)).
Definition routing_table_client_mode : M bool :=
  gets (fun s => client_mode (routing_table_ s)).
Definition GetTimeStamp : M Z := gets clock.

(** *** Calls on the collaborators; each one is logged *)

Definition routing_table_CheckNode (peer : NodeInfo) : M bool :=
  modify (log (call_CheckNode peer)) ;;
  gets (fun s => CheckNode (routing_table_ s) peer).

Definition routing_table_GetNthClosestNode (target : NodeId) (n : Z)
  : M NodeInfo :=
  modify (log (call_GetNthClosestNode target n)) ;;
  gets (fun s => GetNthClosestNode (routing_table_ s) target n).

Definition routing_table_GetClosestNodes (target : NodeId) (n : Z)
  : M (list NodeId) :=
  modify (log (call_GetClosestNodes target n)) ;;
  gets (fun s => GetClosestNodes (routing_table_ s) target n).

Definition routing_table_AddPendingNode (peer : NodeInfo) : M unit :=
  modify (log (call_AddPendingNode peer)) ;;
  modify (fun s =>
            with_routing_table (AddPendingNode (routing_table_ s) peer) s).

Definition non_routing_table_CheckNode (peer : NodeInfo)
           (furthest_close_node_id : NodeId) : M bool :=
  modify (log (call_NonRoutingTable_CheckNode peer furthest_close_node_id)) ;;
  gets (fun s => NonRoutingTable_CheckNode (non_routing_table_ s) peer
                                           furthest_close_node_id).

Definition network_GetAvailableEndpoint (peer_connection_id : NodeId)
           (peer_endpoint_pair : EndpointPair)
  : M (Z * EndpointPair * NatType) :=
  modify (log (call_GetAvailableEndpoint peer_connection_id
                                         peer_endpoint_pair)) ;;
  r <- gets (fun s => GetAvailableEndpoint (network_ s) peer_connection_id
                                           peer_endpoint_pair) ;;
  modify (with_network (snd r)) ;;
  ret (fst r).

Definition network_AddToRudp
           (this_node_id this_connection_id peer_id peer_connection_id : NodeId)
           (peer_endpoint_pair : EndpointPair) (requestor client : bool)
  : M Z :=
  modify (log (call_AddToRudp this_node_id this_connection_id peer_id
                              peer_connection_id peer_endpoint_pair
                              requestor client)) ;;
  r <- gets (fun s => AddToRudp (network_ s) this_node_id this_connection_id
                                peer_id peer_connection_id
                                peer_endpoint_pair requestor client) ;;
  modify (with_network (snd r)) ;;
  ret (fst r).

Definition network_SendToDirect (m : Message)
           (peer_id peer_connection_id : NodeId) : M unit :=
  modify (log (call_SendToDirect m peer_id peer_connection_id)) ;;
  modify (fun s =>
            with_network (SendToDirect (network_ s) m peer_id
                                       peer_connection_id) s).

(** [if (!x.ParseFromString(...)) { on_failure }] *)
Definition parsed {A} (o : option A) (on_failure : M A) : M A :=
  match o with
  | Some a => ret a
  | None => on_failure
  end.

(** *** [void Service::Ping(protobuf::Message& message)] *)
Definition Ping : M unit :=
  destination_id <- message_destination_id ;;
  identity <- routing_table_kKeys_identity ;;
  when_ (negb (String.eqb destination_id identity))
        (message_Clear ;; return_) ;;
  data0 <- message_data 0 ;;
  _ <- parsed (ParsePingRequest data0) return_ ;;
  original_request <- message_data 0 ;;
  original_signature <- message_signature ;;
  timestamp <- GetTimeStamp ;;
  let ping_response :=
    protobuf.PingResponse.mk (Some true) (Some original_request)
                             (Some original_signature) (Some timestamp) in
  message_update (protobuf.Message.set_request false) ;;
  message_update protobuf.Message.clear_route_history ;;
  message_update protobuf.Message.clear_data ;;
  message_update
    (protobuf.Message.add_data (SerializePingResponse ping_response)) ;;
  source_id <- message_source_id ;;
  message_update (protobuf.Message.set_destination_id source_id) ;;
  identity <- routing_table_kKeys_identity ;;
  message_update (protobuf.Message.set_source_id identity) ;;
  message_update (protobuf.Message.set_hops_to_live Parameters_hops_to_live).

(** The admission test of [Connect]: the client table for a client, the
    routing table otherwise. *)
Definition Connect_check_node (peer_node : NodeInfo) : M bool :=
  client_node <- message_client_node ;;
  if client_node then
    this_node_id <- routing_table_kNodeId ;;
    furthest <- routing_table_GetNthClosestNode
                  this_node_id Parameters_closest_nodes_size ;;
    non_routing_table_CheckNode peer_node (node_id furthest)
  else
    routing_table_CheckNode peer_node.

(** The body of [if (check_node_succeeded) { ... }] in [Connect]; it
    yields the response as the block leaves it. *)
Definition Connect_accept (peer_node : NodeInfo)
           (peer_endpoint_pair : EndpointPair)
           (connect_response : protobuf.ConnectResponse.t)
  : M protobuf.ConnectResponse.t :=
  r <- network_GetAvailableEndpoint (connection_id peer_node)
                                    peer_endpoint_pair ;;
  let '(ret_val, this_endpoint_pair, this_nat_type) := r in
  when_ (negb (ret_val =? kSuccess)) (message_Clear ;; return_) ;;
  this_node_id <- routing_table_kNodeId ;;
  this_connection_id <- routing_table_kConnectionId ;;
  client <- routing_table_client_mode ;;
  add_result <- network_AddToRudp this_node_id this_connection_id
                  (node_id peer_node) (connection_id peer_node)
                  peer_endpoint_pair false client ;;
  if kSuccess =? add_result then
    this_node_id <- routing_table_kNodeId ;;
    this_connection_id <- routing_table_kConnectionId ;;
    ret (protobuf.ConnectResponse.mk
           (Some true)
           (Some (protobuf.Contact.mk
                    (NodeId_String this_node_id)
                    (NodeId_String this_connection_id)
                    (SetProtobufEndpoint (external this_endpoint_pair))
                    (SetProtobufEndpoint (local this_endpoint_pair))
                    (NatTypeProtobuf this_nat_type)))
           (protobuf.ConnectResponse.timestamp connect_response)
           (protobuf.ConnectResponse.original_request connect_response)
           (protobuf.ConnectResponse.original_signature connect_response))
  else ret connect_response.

(** [peer_node], as [Connect] fills it from the contact of the request. *)
Definition Connect_peer_node (connect_request : protobuf.ConnectRequest.t)
  : NodeInfo :=
  let contact := protobuf.ConnectRequest.contact connect_request in
  mkNodeInfo (NodeId_of (protobuf.Contact.node_id contact))
             (NodeId_of (protobuf.Contact.connection_id contact)).

(** [peer_endpoint_pair], as [Connect] fills it: [external] from the
    public endpoint of the contact, [local] from the private one. *)
Definition Connect_peer_endpoint_pair
           (connect_request : protobuf.ConnectRequest.t) : EndpointPair :=
  let contact := protobuf.ConnectRequest.contact connect_request in
  mkEndpointPair
    (GetEndpointFromProtobuf (protobuf.Contact.private_endpoint contact))
    (GetEndpointFromProtobuf (protobuf.Contact.public_endpoint contact)).

(** *** [void Service::Connect(protobuf::Message& message)] *)
Definition Connect : M unit :=
  destination_id <- message_destination_id ;;
  identity <- routing_table_kKeys_identity ;;
  when_ (negb (String.eqb destination_id identity))
        (message_Clear ;; return_) ;;
  data0 <- message_data 0 ;;
  connect_request <- parsed (ParseConnectRequest data0)
                            (message_Clear ;; return_) ;;
  let peer_node := Connect_peer_node connect_request in
  let connect_response :=
    protobuf.ConnectResponse.mk (Some false) None None None None in
  let peer_endpoint_pair := Connect_peer_endpoint_pair connect_request in
  when_ (is_unspecified (address (external peer_endpoint_pair)) &&
         is_unspecified (address (local peer_endpoint_pair)))
        (message_Clear ;; return_) ;;
  check_node_succeeded <- Connect_check_node peer_node ;;
  connect_response <-
    (if check_node_succeeded : bool
     then Connect_accept peer_node peer_endpoint_pair connect_response
     else ret connect_response) ;;
  timestamp <- GetTimeStamp ;;
  original_request <- message_data 0 ;;
  original_signature <- message_signature ;;
  let connect_response :=
    protobuf.ConnectResponse.mk
      (protobuf.ConnectResponse.answer connect_response)
      (protobuf.ConnectResponse.contact connect_response)
      (Some timestamp) (Some original_request) (Some original_signature) in
  message_update protobuf.Message.clear_route_history ;;
  message_update protobuf.Message.clear_data ;;
  message_update
    (protobuf.Message.add_data (SerializeConnectResponse connect_response)) ;;
  message_update (protobuf.Message.set_direct true) ;;
  message_update (protobuf.Message.set_replication 1) ;;
  client <- routing_table_client_mode ;;
  message_update (protobuf.Message.set_client_node client) ;;
  message_update (protobuf.Message.set_request false) ;;
  message_update (protobuf.Message.set_hops_to_live Parameters_hops_to_live) ;;
  has_source_id <- message_has_source_id ;;
  (if has_source_id : bool then
     source_id <- message_source_id ;;
     message_update (protobuf.Message.set_destination_id source_id)
   else
     message_update protobuf.Message.clear_destination_id) ;;
  identity <- routing_table_kKeys_identity ;;
  message_update (protobuf.Message.set_source_id identity).

(** *** [void Service::FindNodes(protobuf::Message& message)] *)
Definition FindNodes : M unit :=
  data0 <- message_data 0 ;;
  find_nodes <- parsed (ParseFindNodesRequest data0)
                       (message_Clear ;; return_) ;;
  let num_nodes_requested :=
    protobuf.FindNodesRequest.num_nodes_requested find_nodes in
  let target_node := protobuf.FindNodesRequest.target_node find_nodes in
  when_ ((0 =? num_nodes_requested) ||
         Empty (NodeId_of target_node) ||
         negb (IsValid (NodeId_of target_node)))
        (message_Clear ;; return_) ;;
  nodes <- routing_table_GetClosestNodes
             (NodeId_of target_node)
             (static_cast_uint16 (uint32_sub num_nodes_requested 1)) ;;
  identity <- routing_table_kKeys_identity ;;
  original_request <- message_data 0 ;;
  original_signature <- message_signature ;;
  timestamp <- GetTimeStamp ;;
  let found_nodes :=
    protobuf.FindNodesResponse.mk
      (identity :: map NodeId_String nodes)
      (Some original_request) (Some original_signature) (Some timestamp) in
  has_source_id <- message_has_source_id ;;
  (if has_source_id : bool then
     source_id <- message_source_id ;;
     message_update (protobuf.Message.set_destination_id source_id)
   else
     message_update protobuf.Message.clear_destination_id) ;;
  identity <- routing_table_kKeys_identity ;;
  message_update (protobuf.Message.set_source_id identity) ;;
  message_update protobuf.Message.clear_route_history ;;
  message_update protobuf.Message.clear_data ;;
  message_update
    (protobuf.Message.add_data (SerializeFindNodesResponse found_nodes)) ;;
  message_update (protobuf.Message.set_direct true) ;;
  message_update (protobuf.Message.set_replication 1) ;;
  client <- routing_table_client_mode ;;
  message_update (protobuf.Message.set_client_node client) ;;
  message_update (protobuf.Message.set_request false) ;;
  message_update (protobuf.Message.set_hops_to_live Parameters_hops_to_live).

(** *** [void Service::ConnectSuccessFromRequester(NodeInfo& peer)] *)
Definition ConnectSuccessFromRequester (peer : NodeInfo) : M unit :=
  routing_table_AddPendingNode peer.

(** *** [void Service::ConnectSuccessFromResponder(NodeInfo& peer)] *)
Definition ConnectSuccessFromResponder (peer : NodeInfo) : M unit :=
  let close_ids : list NodeId := [] in
  this_node_id <- routing_table_kNodeId ;;
  this_connection_id <- routing_table_kConnectionId ;;
  client <- routing_table_client_mode ;;
  let connect_success_ack :=
    ConnectSuccessAcknoledgement (node_id peer) this_node_id
                                 this_connection_id true close_ids client in
  network_SendToDirect connect_success_ack (node_id peer)
                       (connection_id peer).

(** *** [void Service::ConnectSuccess(protobuf::Message& message)] *)
Definition ConnectSuccess : M unit :=
  data0 <- message_data 0 ;;
  connect_success <- parsed (ParseConnectSuccess data0)
                            (message_Clear ;; return_) ;;
  let peer :=
    mkNodeInfo
      (NodeId_of (protobuf.ConnectSuccess.node_id connect_success))
      (NodeId_of (protobuf.ConnectSuccess.connection_id connect_success)) in
  when_ (Empty (node_id peer) || Empty (connection_id peer)) return_ ;;
  (if protobuf.ConnectSuccess.requestor connect_success
   then ConnectSuccessFromRequester peer
   else ConnectSuccessFromResponder peer) ;;
  message_Clear.

End Handlers.
End Service.

(** ** Models of the collaborators, for evaluation

    The general theorems below hold for every implementation of the
    interfaces.  The definitions of this part give one implementation of
    each, so that the handlers can be run on concrete envelopes. *)

(** [NodeId] read as an unsigned integer, most significant byte first. *)
Fixpoint bytes_to_N (acc : N) (s : bytes) : N :=
  match s with
  | EmptyString => acc
  | String c r => bytes_to_N (acc * 256 + N_of_ascii c)%N r
  end.

Definition NodeId_to_N (n : NodeId) : N := bytes_to_N 0%N (raw_id n).

Definition NodeId_eqb (a b : NodeId) : bool := String.eqb (raw_id a) (raw_id b).

(** [NodeId::CloserToTarget(id1, id2, target)]: [id1 XOR target] below
    [id2 XOR target] as unsigned integers. *)
Definition CloserToTarget (id1 id2 target : NodeId) : bool :=
  (N.lxor (NodeId_to_N id1) (NodeId_to_N target)
   <? N.lxor (NodeId_to_N id2) (NodeId_to_N target))%N.

Module Sample.

(** *** [NodeId] *)

Definition kSize : nat := 64.

Fixpoint zero_bytes (n : nat) : bytes :=
  match n with
  | O => EmptyString
  | S k => String Ascii.zero (zero_bytes k)
  end.

(** The identifier whose last byte is [n] and whose other bytes are 0. *)
Definition id_bytes (n : N) : bytes :=
  String.append (zero_bytes (kSize - 1)) (String (ascii_of_N n) EmptyString).

(** A stand-in for the [NodeId] of maidsafe-common: an identifier has
    [kSize] bytes, the constructor keeps no bytes of a string of another
    length, [Empty] holds of an identifier without bytes and [IsValid] of
    one with [kSize] bytes. *)
#[export] Instance node_id_ops : NodeIdOps := {
  NodeId_of s := if Nat.eqb (String.length s) kSize
                 then mkNodeId s else mkNodeId EmptyString;
  Empty n := String.eqb (raw_id n) EmptyString;
  IsValid n := Nat.eqb (String.length (raw_id n)) kSize
}.

(** *** Routing table *)

Record RoutingTable := mkRoutingTable {
  keys_identity : bytes;
  this_node_id : NodeId;
  this_connection_id : NodeId;
  this_client_mode : bool;
  max_routing_table_size : Z;
  nodes : list NodeInfo;
  pending : list NodeInfo
}.

(** Order of the peers around [target]: by XOR distance, then by the raw
    bytes of the ids. *)
Definition before (target : NodeId) (a b : NodeInfo) : bool :=
  CloserToTarget (node_id a) (node_id b) target
  || (negb (CloserToTarget (node_id b) (node_id a) target)
      && String.ltb (raw_id (node_id a)) (raw_id (node_id b))).

Fixpoint insert_by (target : NodeId) (x : NodeInfo) (l : list NodeInfo)
  : list NodeInfo :=
  match l with
  | [] => [x]
  | y :: r => if before target y x then y :: insert_by target x r
              else x :: y :: r
  end.

Definition sort_by (target : NodeId) (l : list NodeInfo) : list NodeInfo :=
  fold_right (insert_by target) [] l.

Definition peers_by_distance (rt : RoutingTable) (target : NodeId)
  : list NodeInfo :=
  sort_by target
          (filter (fun p => negb (NodeId_eqb (node_id p) (this_node_id rt)))
                  (nodes rt)).

(** Modelled from the spec: [RoutingTable::GetClosestNodes] is not among
    the sources.  "GetClosestNodes(target, count): deterministic
    XOR-ordered result, excluding the local id; ties broken by raw lexical
    order of ids", of length [min(count, Size())]. *)
Definition GetClosestNodes (rt : RoutingTable) (target : NodeId) (count : Z)
  : list NodeId :=
  map node_id (firstn (Z.to_nat count) (peers_by_distance rt target)).

(** A default-constructed [NodeInfo]: the ids are zero. *)
Definition NodeInfo_default : NodeInfo :=
  mkNodeInfo (mkNodeId (zero_bytes kSize)) (mkNodeId (zero_bytes kSize)).

(** Modelled from the spec: [RoutingTable::GetNthClosestNode] is not
    among the sources.  "GetNthClosestNode(target, n): 1-indexed; when
    fewer than n entries exist, returns the farthest available." *)
Definition GetNthClosestNode (rt : RoutingTable) (target : NodeId) (n : Z)
  : NodeInfo :=
  let sorted := peers_by_distance rt target in
  let k := Nat.min (Z.to_nat n) (List.length sorted) in
  nth (k - 1) sorted NodeInfo_default.

(** Modelled from the spec: [RoutingTable::CheckNode] is not among the
    sources.  The candidate is not the local node, shares no [node_id]
    and no [connection_id] with an entry, and either the table is not
    full or the candidate is strictly closer to the local id than the
    farthest entry. *)
Definition CheckNode (rt : RoutingTable) (peer : NodeInfo) : bool :=
  negb (NodeId_eqb (node_id peer) (this_node_id rt))
  && negb (existsb (fun p => NodeId_eqb (node_id p) (node_id peer)
                             || NodeId_eqb (connection_id p)
                                           (connection_id peer))
                   (nodes rt))
  && ((Z.of_nat (List.length (nodes rt)) <? max_routing_table_size rt)
      || CloserToTarget
           (node_id peer)
           (node_id (GetNthClosestNode rt (this_node_id rt)
                                       (max_routing_table_size rt)))
           (this_node_id rt)).

(** Modelled from the spec: [RoutingTable::AddPendingNode] is not among
    the sources.  The pending set gains the peer; a second add of the
    same peer changes nothing. *)
Definition AddPendingNode (rt : RoutingTable) (peer : NodeInfo)
  : RoutingTable :=
  if existsb (fun p => NodeId_eqb (node_id p) (node_id peer)) (pending rt)
  then rt
  else mkRoutingTable (keys_identity rt) (this_node_id rt)
                      (this_connection_id rt) (this_client_mode rt)
                      (max_routing_table_size rt) (nodes rt)
                      (pending rt ++ [peer]).

#[export] Instance routing_table_ops : RoutingTableOps RoutingTable := {
  kKeys_identity := keys_identity;
  kNodeId := this_node_id;
  kConnectionId := this_connection_id;
  client_mode := this_client_mode;
  CheckNode := CheckNode;
  GetNthClosestNode := GetNthClosestNode;
  GetClosestNodes := GetClosestNodes;
  AddPendingNode := AddPendingNode
}.

(** *** Client table *)

Record NonRoutingTable := mkNonRoutingTable {
  local_node_id : NodeId;
  clients : list NodeInfo
}.

(** Modelled from the spec: [NonRoutingTable::CheckNode] is not among
    the sources.  "Admission requires that the candidate is closer to the
    local id than the closest_nodes_size-th closest server peer." *)
Definition NonRoutingTable_CheckNode (nrt : NonRoutingTable)
           (peer : NodeInfo) (furthest_close_node_id : NodeId) : bool :=
  CloserToTarget (node_id peer) furthest_close_node_id (local_node_id nrt).

#[export] Instance non_routing_table_ops : NonRoutingTableOps NonRoutingTable := {
  NonRoutingTable_CheckNode := NonRoutingTable_CheckNode
}.

(** *** Transport *)

(** A stand-in for the transport: what it answers is fixed by its state;
    it records the connections added and the messages sent. *)
Record Network := mkNetwork {
  endpoint_status : Z;
  this_endpoint_pair : EndpointPair;
  this_nat_type : NatType;
  add_status : Z;
  connections : list NodeId;
  sent : list (Message * NodeId * NodeId)
}.

#[export] Instance network_ops : NetworkOps Network := {
  GetAvailableEndpoint net peer_connection_id peer_endpoint_pair :=
    ((endpoint_status net, this_endpoint_pair net, this_nat_type net), net);
  AddToRudp net this_id this_connection peer_id peer_connection pair
            requestor client :=
    (add_status net,
     if add_status net =? kSuccess
     then mkNetwork (endpoint_status net) (this_endpoint_pair net)
                    (this_nat_type net) (add_status net)
                    (connections net ++ [peer_connection]) (sent net)
     else net);
  SendToDirect net m peer_id peer_connection :=
    mkNetwork (endpoint_status net) (this_endpoint_pair net)
              (this_nat_type net) (add_status net) (connections net)
              (sent net ++ [(m, peer_id, peer_connection)])
}.

#[export] Instance parameters : Parameters := {
  Parameters_hops_to_live := 20;
  Parameters_closest_nodes_size := 8
}.

End Sample.

(** *** Wire codec and helpers

    A stand-in for the protobuf codec: the fields of a payload in order,
    separated by a bar, numbers in decimal. *)
Module SampleCodec.

Definition bar : ascii := "|"%char.

Fixpoint split_on (sep : ascii) (s : bytes) : list bytes :=
  match s with
  | EmptyString => [EmptyString]
  | String c r =>
      if Ascii.eqb c sep then EmptyString :: split_on sep r
      else match split_on sep r with
           | h :: t => String c h :: t
           | [] => [String c EmptyString]
           end
  end.

Definition join (fields : list bytes) : bytes := String.concat "|" fields.

Definition read_Z (s : bytes) : option Z :=
  option_map Z.of_uint (NilEmpty.uint_of_string s).

Definition show_Z (z : Z) : bytes :=
  NilEmpty.string_of_uint (N.to_uint (Z.to_N z)).

Definition show_bool (b : bool) : bytes := if b then "1" else "0".

Definition show_opt {A} (show : A -> bytes) (o : option A) : bytes :=
  match o with Some a => show a | None => EmptyString end.

Definition ParsePingRequest (s : bytes) : option protobuf.PingRequest.t :=
  match split_on bar s with
  | [tag; ts] =>
      if String.eqb tag "ping"
      then option_map (protobuf.PingRequest.mk true) (read_Z ts)
      else None
  | _ => None
  end.

Definition ParseConnectRequest (s : bytes) : option protobuf.ConnectRequest.t :=
  match split_on bar s with
  | [tag; node; conn; pub_ip; pub_port; priv_ip; priv_port; nat; ts] =>
      match read_Z pub_port, read_Z priv_port, read_Z nat, read_Z ts with
      | Some pp, Some lp, Some n, Some t =>
          if String.eqb tag "connect"
          then Some (protobuf.ConnectRequest.mk
                       (protobuf.Contact.mk node conn
                          (protobuf.Endpoint.mk pub_ip pp)
                          (protobuf.Endpoint.mk priv_ip lp) n) t)
          else None
      | _, _, _, _ => None
      end
  | _ => None
  end.

Definition ParseFindNodesRequest (s : bytes)
  : option protobuf.FindNodesRequest.t :=
  match split_on bar s with
  | [tag; num; target] =>
      if String.eqb tag "find"
      then option_map (fun n => protobuf.FindNodesRequest.mk (n mod 2 ^ 32) target)
                      (read_Z num)
      else None
  | _ => None
  end.

Definition ParseConnectSuccess (s : bytes) : option protobuf.ConnectSuccess.t :=
  match split_on bar s with
  | [tag; node; conn; requestor] =>
      if String.eqb tag "success"
      then Some (protobuf.ConnectSuccess.mk node conn (String.eqb requestor "1"))
      else None
  | _ => None
  end.

Definition show_Endpoint (e : protobuf.Endpoint.t) : bytes :=
  join [protobuf.Endpoint.ip e; show_Z (protobuf.Endpoint.port e)].

Definition show_Contact (c : protobuf.Contact.t) : bytes :=
  join [protobuf.Contact.node_id c; protobuf.Contact.connection_id c;
        show_Endpoint (protobuf.Contact.public_endpoint c);
        show_Endpoint (protobuf.Contact.private_endpoint c);
        show_Z (protobuf.Contact.nat_type c)].

Definition SerializePingResponse (r : protobuf.PingResponse.t) : bytes :=
  join ["pong"; show_opt show_bool (protobuf.PingResponse.pong r);
        show_opt id (protobuf.PingResponse.original_request r);
        show_opt id (protobuf.PingResponse.original_signature r);
        show_opt show_Z (protobuf.PingResponse.timestamp r)].

Definition SerializeConnectResponse (r : protobuf.ConnectResponse.t) : bytes :=
  join ["connected"; show_opt show_bool (protobuf.ConnectResponse.answer r);
        show_opt show_Contact (protobuf.ConnectResponse.contact r);
        show_opt show_Z (protobuf.ConnectResponse.timestamp r);
        show_opt id (protobuf.ConnectResponse.original_request r);
        show_opt id (protobuf.ConnectResponse.original_signature r)].

Definition SerializeFindNodesResponse (r : protobuf.FindNodesResponse.t)
  : bytes :=
  join ["found"; String.concat "," (protobuf.FindNodesResponse.nodes r);
        show_opt id (protobuf.FindNodesResponse.original_request r);
        show_opt id (protobuf.FindNodesResponse.original_signature r);
        show_opt show_Z (protobuf.FindNodesResponse.timestamp r)].

#[export] Instance codec : Codec := {
  ParsePingRequest := ParsePingRequest;
  ParseConnectRequest := ParseConnectRequest;
  ParseFindNodesRequest := ParseFindNodesRequest;
  ParseConnectSuccess := ParseConnectSuccess;
  SerializePingResponse := SerializePingResponse;
  SerializeConnectResponse := SerializeConnectResponse;
  SerializeFindNodesResponse := SerializeFindNodesResponse
}.

(** An address travels as the bytes of its number. *)
Definition GetEndpointFromProtobuf (e : protobuf.Endpoint.t) : Endpoint :=
  mkEndpoint (address_v4 (Z.of_N (bytes_to_N 0%N (protobuf.Endpoint.ip e))))
             (protobuf.Endpoint.port e).

Definition address_number (a : Address) : Z :=
  match a with address_v4 n => n | address_v6 n => n end.

Definition ip_bytes (n : Z) : bytes :=
  String (ascii_of_N (Z.to_N (n / 2 ^ 24 mod 256)))
    (String (ascii_of_N (Z.to_N (n / 2 ^ 16 mod 256)))
       (String (ascii_of_N (Z.to_N (n / 2 ^ 8 mod 256)))
          (String (ascii_of_N (Z.to_N (n mod 256))) EmptyString))).

Definition SetProtobufEndpoint (e : Endpoint) : protobuf.Endpoint.t :=
  protobuf.Endpoint.mk (ip_bytes (address_number (address e))) (port e).

Definition NatTypeProtobuf (n : NatType) : Z :=
  match n with kSymmetric => 0 | kOther => 1 | kUnknown => 2 end.

(** Modelled from the spec: [rpcs::ConnectSuccessAcknoledgement] is not
    among the sources.  An envelope with the request flag cleared,
    [hops_to_live] initialised, [replication] set and [direct] set, whose
    payload carries the ids, the requestor flag and the close-id hint
    list. *)
Definition ConnectSuccessAcknoledgement
           (node_id this_node_id this_connection_id : NodeId)
           (requestor : bool) (close_ids : list NodeId) (client_node : bool)
  : Message :=
  protobuf.Message.mk
    (Some (NodeId_String this_node_id)) (Some (NodeId_String node_id))
    [join ["ack"; NodeId_String this_node_id;
           NodeId_String this_connection_id; show_bool requestor;
           String.concat "," (map NodeId_String close_ids)]]
    None (Some false) (Some true) (Some client_node) (Some 1)
    (Some (@Parameters_hops_to_live Sample.parameters)) [].

#[export] Instance utils : Utils := {
  GetEndpointFromProtobuf := GetEndpointFromProtobuf;
  SetProtobufEndpoint := SetProtobufEndpoint;
  NatTypeProtobuf := NatTypeProtobuf;
  ConnectSuccessAcknoledgement := ConnectSuccessAcknoledgement
}.

End SampleCodec.

(** *** A sample node and sample envelopes *)
Module Scenario.
Import Sample SampleCodec.

Definition id (n : N) : NodeId := mkNodeId (id_bytes n).
Definition peer (n : N) : NodeInfo := mkNodeInfo (id n) (id (n + 64)).

(** The local node has id 32; its table holds the ids 1, 3, 7, 15, 31. *)
Definition routing_table : RoutingTable :=
  mkRoutingTable (id_bytes 32) (id 32) (id 33) false 64
                 [peer 15; peer 1; peer 31; peer 3; peer 7] [].

Definition non_routing_table : NonRoutingTable := mkNonRoutingTable (id 32) [].

Definition endpoint (a : Z) : Endpoint := mkEndpoint (address_v4 a) 5483.

Definition network : Network :=
  mkNetwork kSuccess (mkEndpointPair (endpoint 167772161) (endpoint 3325256705))
            kOther kSuccess [] [].

Definition state (m : Message) : Ctx RoutingTable NonRoutingTable Network :=
  mkCtx m routing_table non_routing_table network 1000 [].

(** An inbound request from [source] to [destination] with one payload. *)
Definition request (source destination : option bytes) (payload : bytes)
  : Message :=
  protobuf.Message.mk source destination [payload] (Some "signature")
                      (Some true) (Some false) (Some false) (Some 4)
                      (Some 19) ["hop"].

Definition find_payload (num : bytes) (target : N) : bytes :=
  join ["find"; num; id_bytes target].

Definition connect_payload (node : N) (pub_ip priv_ip : bytes) : bytes :=
  join ["connect"; id_bytes node; id_bytes (node + 64);
        pub_ip; "5483"; priv_ip; "5483"; "1"; "999"].

Definition success_payload (node conn : bytes) (requestor : bool) : bytes :=
  join ["success"; node; conn; show_bool requestor].

(** The handlers of the sample node. *)
Definition Ping :=
  Service.Ping (RT := RoutingTable) (NRT := NonRoutingTable) (NET := Network).
Definition Connect :=
  Service.Connect (RT := RoutingTable) (NRT := NonRoutingTable)
                  (NET := Network).
Definition FindNodes :=
  Service.FindNodes (RT := RoutingTable) (NRT := NonRoutingTable)
                    (NET := Network).
Definition ConnectSuccess :=
  Service.ConnectSuccess (RT := RoutingTable) (NRT := NonRoutingTable)
                         (NET := Network).

(** Requests used below: a ping, a garbled ping, a [FindNodes] for three
    nodes around 0, one around 5, one for 65537 nodes around 5, a connect request from
    node 5 that names a public endpoint, a [ConnectSuccess] of node 5 as
    requestor and as responder, and one without a [node_id]. *)
Definition this_node : option bytes := Some (id_bytes 32).
Definition requester : option bytes := Some (id_bytes 5).

Definition ping_request : Message := request requester this_node "ping|999".
Definition garbled_ping : Message := request requester this_node "garbled".
Definition find_three : bytes := find_payload "3" 0.
Definition find_near_5 : bytes := find_payload "3" 5.
Definition find_65537 : bytes := find_payload "65537" 5.
Definition connect_from_5 : bytes :=
  connect_payload 5 (ip_bytes 167772162) (ip_bytes 0).
Definition connect_unspecified : bytes :=
  connect_payload 5 (ip_bytes 0) (ip_bytes 0).
Definition success_from_requester : bytes :=
  success_payload (id_bytes 5) (id_bytes 69) true.
Definition success_from_responder : bytes :=
  success_payload (id_bytes 5) (id_bytes 69) false.
Definition success_without_node_id : bytes :=
  success_payload EmptyString (id_bytes 69) true.

(** Further requests: a [FindNodes] for no node, a connect request from
    node 7, which the table already holds, and a transport that has no
    endpoint to offer. *)
Definition find_none : bytes := find_payload "0" 5.
Definition connect_from_7 : bytes :=
  connect_payload 7 (ip_bytes 167772162) (ip_bytes 0).

Definition network_without_endpoint : Network :=
  mkNetwork (-1) (mkEndpointPair (endpoint 0) (endpoint 0)) kUnknown
            kSuccess [] [].

Definition state_without_endpoint (m : Message)
  : Ctx RoutingTable NonRoutingTable Network :=
  mkCtx m routing_table non_routing_table network_without_endpoint 1000 [].

(** An envelope for this node without data, and the connect request of
    node 5 sent as a client. *)
Definition without_data : Message :=
  protobuf.Message.mk requester this_node [] (Some "signature") (Some true)
                      (Some false) (Some false) (Some 4) (Some 19) ["hop"].

Definition client_connect : Message :=
  protobuf.Message.mk requester this_node [connect_from_5] (Some "signature")
                      (Some true) (Some false) (Some true) (Some 4)
                      (Some 19) ["hop"].

End Scenario.

Unset Implicit Arguments.

(** * Properties of the handlers *)

Section Properties.

Context {RT NRT NET : Type}.
Context {node_id_ops : NodeIdOps} {codec : Codec} {utils : Utils}
        {parameters : Parameters}
        {routing_table_ops : RoutingTableOps RT}
        {non_routing_table_ops : NonRoutingTableOps NRT}
        {network_ops : NetworkOps NET}.

Implicit Type s : Ctx RT NRT NET.

(** Unfolds a handler down to the state transformer it denotes. *)
Ltac unfold_service :=
  unfold Service.Ping, Service.Connect, Service.FindNodes,
    Service.ConnectSuccess, Service.Connect_check_node,
    Service.Connect_accept, Service.ConnectSuccessFromRequester,
    Service.ConnectSuccessFromResponder, Service.routing_table_CheckNode,
    Service.routing_table_GetNthClosestNode,
    Service.routing_table_GetClosestNodes,
    Service.routing_table_AddPendingNode, Service.non_routing_table_CheckNode,
    Service.network_GetAvailableEndpoint, Service.network_AddToRudp,
    Service.network_SendToDirect, Service.message_destination_id,
    Service.message_source_id, Service.message_has_source_id,
    Service.message_signature, Service.message_client_node,
    Service.message_data, Service.message_update, Service.message_Clear,
    Service.routing_table_kKeys_identity, Service.routing_table_kNodeId,
    Service.routing_table_kConnectionId, Service.routing_table_client_mode,
    Service.GetTimeStamp, Service.parsed,
    bind, ret, return_, gets, modify, when_ in *.

(** Opens the state and the envelope, and names [data(0)] when a
    hypothesis gives it. *)
Ltac open_state s :=
  destruct s as [[src dst dat sig rq dr cl rp hp rh] rt nrt net clk cs];
  cbn [message routing_table_ non_routing_table_ network_ clock calls
       protobuf.Message.source_id protobuf.Message.destination_id
       protobuf.Message.data protobuf.Message.signature
       protobuf.Message.request protobuf.Message.direct
       protobuf.Message.client_node protobuf.Message.replication
       protobuf.Message.hops_to_live protobuf.Message.route_history] in *.

(** Evaluates the updates of the state, leaving the lists of calls as they
    were appended. *)
Ltac eval_state :=
  cbv beta iota zeta delta
      [with_message with_network with_routing_table log ret
       message routing_table_ non_routing_table_ network_ clock calls
       fst snd has value_or
       protobuf.Message.source_id protobuf.Message.destination_id
       protobuf.Message.data protobuf.Message.signature
       protobuf.Message.request protobuf.Message.direct
       protobuf.Message.client_node protobuf.Message.replication
       protobuf.Message.hops_to_live protobuf.Message.route_history
       protobuf.Message.set_source_id protobuf.Message.set_destination_id
       protobuf.Message.clear_destination_id protobuf.Message.clear_data
       protobuf.Message.add_data protobuf.Message.set_request
       protobuf.Message.set_direct protobuf.Message.set_client_node
       protobuf.Message.set_replication protobuf.Message.set_hops_to_live
       protobuf.Message.clear_route_history protobuf.Message.Clear
       protobuf.ConnectResponse.answer protobuf.ConnectResponse.contact
       protobuf.ConnectResponse.timestamp
       protobuf.ConnectResponse.original_request
       protobuf.ConnectResponse.original_signature].

Ltac first_data H :=
  match type of H with
  | nth_error ?dat 0 = Some _ =>
      destruct dat as [|? ?]; [discriminate H | injection H as ->]
  end.

(** ** [Ping], path by path *)

Lemma Ping_not_for_this_node s :
  value_or "" (protobuf.Message.destination_id (message s))
  <> kKeys_identity (routing_table_ s) ->
  Service.Ping s = (Returned, with_message protobuf.Message.Clear s).
Proof.
  open_state s. intros Hd. apply String.eqb_neq in Hd.
  unfold_service. cbn. rewrite Hd. reflexivity.
Qed.

Lemma Ping_unparsed s d0 :
  value_or "" (protobuf.Message.destination_id (message s))
  = kKeys_identity (routing_table_ s) ->
  nth_error (protobuf.Message.data (message s)) 0 = Some d0 ->
  ParsePingRequest d0 = None ->
  Service.Ping s = (Returned, s).
Proof.
  open_state s. intros Hd Hn Hp. first_data Hn.
  unfold_service. cbn. rewrite Hd, String.eqb_refl. cbn. rewrite Hp.
  reflexivity.
Qed.

Lemma Ping_without_data s :
  value_or "" (protobuf.Message.destination_id (message s))
  = kKeys_identity (routing_table_ s) ->
  protobuf.Message.data (message s) = [] ->
  Service.Ping s = (Fault, s).
Proof.
  open_state s. intros Hd ->.
  unfold_service. cbn. rewrite Hd, String.eqb_refl. reflexivity.
Qed.

Lemma Ping_parsed s d0 req :
  value_or "" (protobuf.Message.destination_id (message s))
  = kKeys_identity (routing_table_ s) ->
  nth_error (protobuf.Message.data (message s)) 0 = Some d0 ->
  ParsePingRequest d0 = Some req ->
  Service.Ping s =
  (Val tt,
   with_message
     (protobuf.Message.mk
        (Some (kKeys_identity (routing_table_ s)))
        (Some (value_or "" (protobuf.Message.source_id (message s))))
        [SerializePingResponse
           (protobuf.PingResponse.mk
              (Some true) (Some d0)
              (Some (value_or "" (protobuf.Message.signature (message s))))
              (Some (clock s)))]
        (protobuf.Message.signature (message s))
        (Some false)
        (protobuf.Message.direct (message s))
        (protobuf.Message.client_node (message s))
        (protobuf.Message.replication (message s))
        (Some Parameters_hops_to_live)
        [])
     s).
Proof.
  open_state s. intros Hd Hn Hp. first_data Hn.
  unfold_service. cbn. rewrite Hd, String.eqb_refl. cbn. rewrite Hp.
  reflexivity.
Qed.

(** ** [Connect], path by path *)

Lemma Connect_not_for_this_node s :
  value_or "" (protobuf.Message.destination_id (message s))
  <> kKeys_identity (routing_table_ s) ->
  Service.Connect s = (Returned, with_message protobuf.Message.Clear s).
Proof.
  open_state s. intros Hd. apply String.eqb_neq in Hd.
  unfold_service. cbn. rewrite Hd. reflexivity.
Qed.

Lemma Connect_unparsed s d0 :
  value_or "" (protobuf.Message.destination_id (message s))
  = kKeys_identity (routing_table_ s) ->
  nth_error (protobuf.Message.data (message s)) 0 = Some d0 ->
  ParseConnectRequest d0 = None ->
  Service.Connect s = (Returned, with_message protobuf.Message.Clear s).
Proof.
  open_state s. intros Hd Hn Hp. first_data Hn.
  unfold_service. cbn. rewrite Hd, String.eqb_refl. cbn. rewrite Hp.
  reflexivity.
Qed.

Lemma Connect_unspecified s d0 req :
  value_or "" (protobuf.Message.destination_id (message s))
  = kKeys_identity (routing_table_ s) ->
  nth_error (protobuf.Message.data (message s)) 0 = Some d0 ->
  ParseConnectRequest d0 = Some req ->
  is_unspecified (address (external (Service.Connect_peer_endpoint_pair req)))
  && is_unspecified (address (local (Service.Connect_peer_endpoint_pair req)))
  = true ->
  Service.Connect s = (Returned, with_message protobuf.Message.Clear s).
Proof.
  open_state s. intros Hd Hn Hp Hu. first_data Hn.
  unfold Service.Connect_peer_endpoint_pair in Hu. cbn in Hu.
  unfold_service. cbn. rewrite Hd, String.eqb_refl. cbn. rewrite Hp.
  cbn. rewrite Hu. reflexivity.
Qed.

(** The admission test and the calls it makes. *)
Lemma Connect_check_node_run s peer :
  Service.Connect_check_node peer s =
  if value_or false (protobuf.Message.client_node (message s)) then
    let furthest :=
      GetNthClosestNode (routing_table_ s) (kNodeId (routing_table_ s))
                        Parameters_closest_nodes_size in
    (Val (NonRoutingTable_CheckNode (non_routing_table_ s) peer
                                    (node_id furthest)),
     log (call_NonRoutingTable_CheckNode peer (node_id furthest))
         (log (call_GetNthClosestNode (kNodeId (routing_table_ s))
                                      Parameters_closest_nodes_size) s))
  else
    (Val (CheckNode (routing_table_ s) peer), log (call_CheckNode peer) s).
Proof.
  open_state s. unfold_service. cbn. destruct (value_or false cl); reflexivity.
Qed.

#[local] Arguments Service.Connect_peer_node : simpl never.
#[local] Arguments Service.Connect_peer_endpoint_pair : simpl never.

(** [Connect] on a request for this node that parses and names an
    endpoint, in terms of what the admission test, [GetAvailableEndpoint]
    and [AddToRudp] answer. *)
Lemma Connect_run s d0 req admitted s1 ret_val this_pair nat net1
      add_result net2 :
  let rt := routing_table_ s in
  let peer := Service.Connect_peer_node req in
  let pair := Service.Connect_peer_endpoint_pair req in
  let envelope (answer : bool) (contact : option protobuf.Contact.t) :=
    protobuf.Message.mk
      (Some (kKeys_identity rt))
      (protobuf.Message.source_id (message s))
      [SerializeConnectResponse
         (protobuf.ConnectResponse.mk
            (Some answer) contact (Some (clock s)) (Some d0)
            (Some (value_or "" (protobuf.Message.signature (message s)))))]
      (protobuf.Message.signature (message s))
      (Some false) (Some true) (Some (client_mode rt)) (Some 1)
      (Some Parameters_hops_to_live) [] in
  let gae := call_GetAvailableEndpoint (connection_id peer) pair in
  let add := call_AddToRudp (kNodeId rt) (kConnectionId rt) (node_id peer)
                            (connection_id peer) pair false (client_mode rt) in
  value_or "" (protobuf.Message.destination_id (message s))
  = kKeys_identity rt ->
  nth_error (protobuf.Message.data (message s)) 0 = Some d0 ->
  ParseConnectRequest d0 = Some req ->
  is_unspecified (address (external pair))
  && is_unspecified (address (local pair)) = false ->
  Service.Connect_check_node peer s = (Val admitted, s1) ->
  GetAvailableEndpoint (network_ s) (connection_id peer) pair
  = ((ret_val, this_pair, nat), net1) ->
  AddToRudp net1 (kNodeId rt) (kConnectionId rt) (node_id peer)
            (connection_id peer) pair false (client_mode rt)
  = (add_result, net2) ->
  Service.Connect s =
  if admitted then
    if ret_val =? kSuccess then
      if kSuccess =? add_result then
        (Val tt,
         mkCtx (envelope true
                  (Some (protobuf.Contact.mk
                           (NodeId_String (kNodeId rt))
                           (NodeId_String (kConnectionId rt))
                           (SetProtobufEndpoint (external this_pair))
                           (SetProtobufEndpoint (local this_pair))
                           (NatTypeProtobuf nat))))
               rt (non_routing_table_ s) net2 (clock s)
               (calls s1 ++ [gae; add]))
      else
        (Val tt,
         mkCtx (envelope false None) rt (non_routing_table_ s) net2 (clock s)
               (calls s1 ++ [gae; add]))
    else
      (Returned,
       mkCtx protobuf.Message.Clear rt (non_routing_table_ s) net1 (clock s)
             (calls s1 ++ [gae]))
  else
    (Val tt,
     mkCtx (envelope false None) rt (non_routing_table_ s) (network_ s)
           (clock s) (calls s1)).
Proof.
  intros rt0 peer pair envelope gae add Hd Hn Hp Hu Hc Hg Ha.
  rewrite Connect_check_node_run in Hc.
  subst rt0 envelope gae add peer pair.
  open_state s. first_data Hn. destruct src as [src|].
  all: unfold_service; cbn; rewrite Hd, String.eqb_refl; cbn; rewrite Hp; cbn;
    rewrite Hu; cbn.
  all: destruct (value_or false cl); cbn in Hc |- *;
    injection Hc as <- <-; cbn;
    match goal with
    | |- context [NonRoutingTable_CheckNode ?a ?b ?c] =>
        destruct (NonRoutingTable_CheckNode a b c)
    | |- context [CheckNode ?a ?b] => destruct (CheckNode a b)
    end; cbn; try reflexivity;
    rewrite Hg; cbn;
    (destruct ret_val; cbn; try reflexivity);
    rewrite Ha; cbn;
    destruct add_result; eval_state; rewrite <- ?app_assoc; reflexivity.
Qed.

(** ** [FindNodes], path by path *)

(** The count handed to [GetClosestNodes] keeps the low 16 bits of
    [num_nodes_requested - 1]. *)
Lemma FindNodes_count (num : Z) :
  static_cast_uint16 (uint32_sub num 1) = (num - 1) mod 2 ^ 16.
Proof.
  unfold static_cast_uint16, uint32_sub.
  apply Z.mod_mod_divide. exists (2 ^ 16). reflexivity.
Qed.

Lemma FindNodes_count_small (num : Z) :
  0 < num <= 2 ^ 16 -> static_cast_uint16 (uint32_sub num 1) = num - 1.
Proof.
  intros H. rewrite FindNodes_count. apply Z.mod_small. lia.
Qed.

Lemma FindNodes_without_data s :
  protobuf.Message.data (message s) = [] ->
  Service.FindNodes s = (Fault, s).
Proof.
  open_state s. intros ->. reflexivity.
Qed.

Lemma FindNodes_unparsed s d0 :
  nth_error (protobuf.Message.data (message s)) 0 = Some d0 ->
  ParseFindNodesRequest d0 = None ->
  Service.FindNodes s = (Returned, with_message protobuf.Message.Clear s).
Proof.
  open_state s. intros Hn Hp. first_data Hn.
  unfold_service. cbn. rewrite Hp. reflexivity.
Qed.

Lemma FindNodes_invalid s d0 req :
  nth_error (protobuf.Message.data (message s)) 0 = Some d0 ->
  ParseFindNodesRequest d0 = Some req ->
  (0 =? protobuf.FindNodesRequest.num_nodes_requested req)
  || Empty (NodeId_of (protobuf.FindNodesRequest.target_node req))
  || negb (IsValid (NodeId_of (protobuf.FindNodesRequest.target_node req)))
  = true ->
  Service.FindNodes s = (Returned, with_message protobuf.Message.Clear s).
Proof.
  open_state s. intros Hn Hp Hv. first_data Hn.
  unfold_service. cbn [nth_error message protobuf.Message.data].
  rewrite Hp. cbv beta iota zeta. rewrite Hv. reflexivity.
Qed.

Lemma FindNodes_run s d0 req :
  let rt := routing_table_ s in
  let target := NodeId_of (protobuf.FindNodesRequest.target_node req) in
  let count :=
    static_cast_uint16
      (uint32_sub (protobuf.FindNodesRequest.num_nodes_requested req) 1) in
  nth_error (protobuf.Message.data (message s)) 0 = Some d0 ->
  ParseFindNodesRequest d0 = Some req ->
  (0 =? protobuf.FindNodesRequest.num_nodes_requested req)
  || Empty target || negb (IsValid target) = false ->
  Service.FindNodes s =
  (Val tt,
   mkCtx
     (protobuf.Message.mk
        (Some (kKeys_identity rt))
        (protobuf.Message.source_id (message s))
        [SerializeFindNodesResponse
           (protobuf.FindNodesResponse.mk
              (kKeys_identity rt
               :: map NodeId_String (GetClosestNodes rt target count))
              (Some d0)
              (Some (value_or "" (protobuf.Message.signature (message s))))
              (Some (clock s)))]
        (protobuf.Message.signature (message s))
        (Some false) (Some true) (Some (client_mode rt)) (Some 1)
        (Some Parameters_hops_to_live) [])
     rt (non_routing_table_ s) (network_ s) (clock s)
     (calls s ++ [call_GetClosestNodes target count])).
Proof.
  intros rt0 target count Hn Hp Hv. subst rt0 target count.
  open_state s. first_data Hn. destruct src as [src|].
  all: unfold_service; cbn [nth_error message protobuf.Message.data];
    rewrite Hp; cbv beta iota zeta; rewrite Hv; reflexivity.
Qed.

(** ** [ConnectSuccess], path by path *)

Lemma ConnectSuccess_without_data s :
  protobuf.Message.data (message s) = [] ->
  Service.ConnectSuccess s = (Fault, s).
Proof.
  open_state s. intros ->. reflexivity.
Qed.

Lemma ConnectSuccess_unparsed s d0 :
  nth_error (protobuf.Message.data (message s)) 0 = Some d0 ->
  ParseConnectSuccess d0 = None ->
  Service.ConnectSuccess s = (Returned, with_message protobuf.Message.Clear s).
Proof.
  open_state s. intros Hn Hp. first_data Hn.
  unfold_service. cbn. rewrite Hp. reflexivity.
Qed.

Lemma ConnectSuccess_empty_id s d0 cs0 :
  nth_error (protobuf.Message.data (message s)) 0 = Some d0 ->
  ParseConnectSuccess d0 = Some cs0 ->
  Empty (NodeId_of (protobuf.ConnectSuccess.node_id cs0))
  || Empty (NodeId_of (protobuf.ConnectSuccess.connection_id cs0)) = true ->
  Service.ConnectSuccess s = (Returned, s).
Proof.
  open_state s. intros Hn Hp He. first_data Hn.
  unfold_service. cbn. rewrite Hp. cbn. rewrite He. reflexivity.
Qed.

Lemma ConnectSuccess_from_requester s d0 cs0 :
  let peer :=
    mkNodeInfo (NodeId_of (protobuf.ConnectSuccess.node_id cs0))
               (NodeId_of (protobuf.ConnectSuccess.connection_id cs0)) in
  nth_error (protobuf.Message.data (message s)) 0 = Some d0 ->
  ParseConnectSuccess d0 = Some cs0 ->
  Empty (node_id peer) || Empty (connection_id peer) = false ->
  protobuf.ConnectSuccess.requestor cs0 = true ->
  Service.ConnectSuccess s =
  (Val tt,
   mkCtx protobuf.Message.Clear
         (AddPendingNode (routing_table_ s) peer)
         (non_routing_table_ s) (network_ s) (clock s)
         (calls s ++ [call_AddPendingNode peer])).
Proof.
  intros peer Hn Hp He Hr. subst peer. cbn in He.
  open_state s. first_data Hn.
  unfold_service. cbn. rewrite Hp. cbn. rewrite He, Hr. reflexivity.
Qed.

Lemma ConnectSuccess_from_responder s d0 cs0 :
  let rt := routing_table_ s in
  let peer :=
    mkNodeInfo (NodeId_of (protobuf.ConnectSuccess.node_id cs0))
               (NodeId_of (protobuf.ConnectSuccess.connection_id cs0)) in
  let connect_success_ack :=
    ConnectSuccessAcknoledgement (node_id peer) (kNodeId rt)
                                 (kConnectionId rt) true [] (client_mode rt) in
  nth_error (protobuf.Message.data (message s)) 0 = Some d0 ->
  ParseConnectSuccess d0 = Some cs0 ->
  Empty (node_id peer) || Empty (connection_id peer) = false ->
  protobuf.ConnectSuccess.requestor cs0 = false ->
  Service.ConnectSuccess s =
  (Val tt,
   mkCtx protobuf.Message.Clear rt (non_routing_table_ s)
         (SendToDirect (network_ s) connect_success_ack (node_id peer)
                       (connection_id peer))
         (clock s)
         (calls s ++ [call_SendToDirect connect_success_ack (node_id peer)
                                        (connection_id peer)])).
Proof.
  intros rt0 peer ack Hn Hp He Hr. subst rt0 peer ack. cbn in He.
  open_state s. first_data Hn.
  unfold_service. cbn. rewrite Hp. cbn. rewrite He, Hr. reflexivity.
Qed.

(** ** Statements of the specification, for every implementation of the
    collaborators *)

(** C1.  [Connect] on a request for this node that parses and names at
    least one endpoint.  When the admission test succeeds and
    [GetAvailableEndpoint] fails there is no response: the envelope is
    cleared.  In every other case there is one: its [answer] is true exactly
    when the admission test, [GetAvailableEndpoint] and the transport add
    all succeed, and then it holds the local contact block; it carries the
    request bytes, the signature of the request and the timestamp; the
    envelope has [direct = true], [replication = 1], [request = false] and
    the [source_id] field of the request as its [destination_id]. *)
Theorem Connect_response s d0 req admitted s1 ret_val this_pair nat net1
        add_result net2 :
  let rt := routing_table_ s in
  let peer := Service.Connect_peer_node req in
  let pair := Service.Connect_peer_endpoint_pair req in
  let result := snd (Service.Connect s) in
  let answer :=
    admitted && (ret_val =? kSuccess) && (add_result =? kSuccess) in
  let contact :=
    protobuf.Contact.mk
      (NodeId_String (kNodeId rt)) (NodeId_String (kConnectionId rt))
      (SetProtobufEndpoint (external this_pair))
      (SetProtobufEndpoint (local this_pair))
      (NatTypeProtobuf nat) in
  value_or "" (protobuf.Message.destination_id (message s))
  = kKeys_identity rt ->
  nth_error (protobuf.Message.data (message s)) 0 = Some d0 ->
  ParseConnectRequest d0 = Some req ->
  is_unspecified (address (external pair))
  && is_unspecified (address (local pair)) = false ->
  Service.Connect_check_node peer s = (Val admitted, s1) ->
  GetAvailableEndpoint (network_ s) (connection_id peer) pair
  = ((ret_val, this_pair, nat), net1) ->
  AddToRudp net1 (kNodeId rt) (kConnectionId rt) (node_id peer)
            (connection_id peer) pair false (client_mode rt)
  = (add_result, net2) ->
  if admitted && negb (ret_val =? kSuccess) then
    message result = protobuf.Message.Clear
  else
    fst (Service.Connect s) = Val tt
    /\ protobuf.Message.data (message result)
       = [SerializeConnectResponse
            (protobuf.ConnectResponse.mk
               (Some answer)
               (if answer then Some contact else None)
               (Some (clock s))
               (Some d0)
               (Some (value_or "" (protobuf.Message.signature (message s)))))]
    /\ protobuf.Message.direct (message result) = Some true
    /\ protobuf.Message.replication (message result) = Some 1
    /\ protobuf.Message.request (message result) = Some false
    /\ protobuf.Message.destination_id (message result)
       = protobuf.Message.source_id (message s).
Proof.
  intros rt peer pair result answer contact Hd Hn Hp Hu Hc Hg Ha.
  subst result answer contact.
  rewrite (Connect_run s d0 req admitted s1 ret_val this_pair nat net1
                       add_result net2 Hd Hn Hp Hu Hc Hg Ha).
  unfold kSuccess.
  destruct admitted; cbn [andb negb]; [|cbn; auto 10].
  destruct (ret_val =? 0) eqn:Er; cbn [negb]; [|reflexivity].
  rewrite (Z.eqb_sym 0 add_result).
  destruct (add_result =? 0); cbn; auto 10.
Qed.

(** C2, as amended.  [Ping] and [Connect], given an envelope whose
    [destination_id] is not the identity of this node, clear the envelope
    and return; nothing else changes and no call is made. *)
Theorem Ping_Connect_not_for_this_node s :
  value_or "" (protobuf.Message.destination_id (message s))
  <> kKeys_identity (routing_table_ s) ->
  Service.Ping s = (Returned, with_message protobuf.Message.Clear s)
  /\ Service.Connect s = (Returned, with_message protobuf.Message.Clear s).
Proof.
  intros Hd. split.
  - now apply Ping_not_for_this_node.
  - now apply Connect_not_for_this_node.
Qed.

(** C3, as amended.  [FindNodes] on a request that parses, asks for at
    least one node and has a target that is valid and not empty: the node
    list of the response is the identity of this node followed by
    [GetClosestNodes(target, (num_nodes_requested - 1) mod 2^16)], in that
    order; the count is [num_nodes_requested - 1] as long as
    [num_nodes_requested] does not exceed 65536. *)
Theorem FindNodes_response s d0 req :
  let rt := routing_table_ s in
  let num := protobuf.FindNodesRequest.num_nodes_requested req in
  let target := NodeId_of (protobuf.FindNodesRequest.target_node req) in
  let count := (num - 1) mod 2 ^ 16 in
  let result := snd (Service.FindNodes s) in
  nth_error (protobuf.Message.data (message s)) 0 = Some d0 ->
  ParseFindNodesRequest d0 = Some req ->
  0 < num ->
  Empty target = false ->
  IsValid target = true ->
  fst (Service.FindNodes s) = Val tt
  /\ protobuf.Message.data (message result)
     = [SerializeFindNodesResponse
          (protobuf.FindNodesResponse.mk
             (kKeys_identity rt
              :: map NodeId_String (GetClosestNodes rt target count))
             (Some d0)
             (Some (value_or "" (protobuf.Message.signature (message s))))
             (Some (clock s)))]
  /\ calls result = calls s ++ [call_GetClosestNodes target count]
  /\ (num <= 65536 -> count = num - 1).
Proof.
  intros rt num target count result Hn Hp Hnum He Hv.
  assert (Hc : (0 =? num) || Empty target || negb (IsValid target) = false).
  { rewrite He, Hv. cbn [negb]. rewrite !orb_false_r. apply Z.eqb_neq. lia. }
  subst result. rewrite (FindNodes_run s d0 req Hn Hp Hc).
  fold rt num target. rewrite (FindNodes_count num). fold count.
  cbn. repeat split.
  intros Hle. apply Z.mod_small. lia.
Qed.

(** C4.  [Ping] on an envelope for this node whose [data(0)] parses as a
    [PingRequest]: the payload becomes the serialised
    [PingResponse{pong = true, original_request, original_signature,
    timestamp}], [destination_id] the [source_id] of the request,
    [source_id] the identity of this node, [route_history] is empty,
    [request] is false and [hops_to_live] is [Parameters::hops_to_live];
    the other fields and the collaborators are as they were. *)
Theorem Ping_reply s d0 req :
  value_or "" (protobuf.Message.destination_id (message s))
  = kKeys_identity (routing_table_ s) ->
  nth_error (protobuf.Message.data (message s)) 0 = Some d0 ->
  ParsePingRequest d0 = Some req ->
  Service.Ping s =
  (Val tt,
   with_message
     (protobuf.Message.mk
        (Some (kKeys_identity (routing_table_ s)))
        (Some (value_or "" (protobuf.Message.source_id (message s))))
        [SerializePingResponse
           (protobuf.PingResponse.mk
              (Some true) (Some d0)
              (Some (value_or "" (protobuf.Message.signature (message s))))
              (Some (clock s)))]
        (protobuf.Message.signature (message s))
        (Some false)
        (protobuf.Message.direct (message s))
        (protobuf.Message.client_node (message s))
        (protobuf.Message.replication (message s))
        (Some Parameters_hops_to_live)
        [])
     s).
Proof.
  exact (Ping_parsed s d0 req).
Qed.

(** C6.  [Connect] on a request that parses and whose public and private
    endpoints are both unspecified returns with the envelope cleared; the
    tables and the transport are as they were and no call was made on
    them: no admission test, no transport call. *)
Theorem Connect_unspecified_endpoints s d0 req :
  let pair := Service.Connect_peer_endpoint_pair req in
  let result := snd (Service.Connect s) in
  nth_error (protobuf.Message.data (message s)) 0 = Some d0 ->
  ParseConnectRequest d0 = Some req ->
  is_unspecified (address (external pair)) = true ->
  is_unspecified (address (local pair)) = true ->
  fst (Service.Connect s) = Returned
  /\ message result = protobuf.Message.Clear
  /\ routing_table_ result = routing_table_ s
  /\ non_routing_table_ result = non_routing_table_ s
  /\ network_ result = network_ s
  /\ calls result = calls s.
Proof.
  intros pair result Hn Hp He Hl. subst result.
  assert (H : Service.Connect s
              = (Returned, with_message protobuf.Message.Clear s)).
  { destruct (String.eqb_spec
                (value_or "" (protobuf.Message.destination_id (message s)))
                (kKeys_identity (routing_table_ s))) as [Hd|Hd].
    - apply (Connect_unspecified s d0 req Hd Hn Hp). fold pair.
      now rewrite He, Hl.
    - now apply Connect_not_for_this_node. }
  rewrite H. cbn. auto 10.
Qed.

(** C9.  Whatever the envelope, [Ping] and [FindNodes] leave the routing
    table, the client table and the transport as they were.  [Ping] makes no
    call on them; [FindNodes] makes at most one, [GetClosestNodes]. *)
Theorem Ping_FindNodes_frame s :
  let p := snd (Service.Ping s) in
  let f := snd (Service.FindNodes s) in
  (routing_table_ p = routing_table_ s
   /\ non_routing_table_ p = non_routing_table_ s
   /\ network_ p = network_ s
   /\ calls p = calls s)
  /\ (routing_table_ f = routing_table_ s
      /\ non_routing_table_ f = non_routing_table_ s
      /\ network_ f = network_ s
      /\ (calls f = calls s
          \/ exists target count,
               calls f = calls s ++ [call_GetClosestNodes target count])).
Proof.
  intros p f. subst p f. split.
  - destruct (String.eqb_spec
                (value_or "" (protobuf.Message.destination_id (message s)))
                (kKeys_identity (routing_table_ s))) as [Hd|Hd].
    + destruct (nth_error (protobuf.Message.data (message s)) 0)
        as [d0|] eqn:Hn.
      * destruct (ParsePingRequest d0) as [req|] eqn:Hp.
        -- rewrite (Ping_parsed s d0 req Hd Hn Hp). cbn. auto.
        -- rewrite (Ping_unparsed s d0 Hd Hn Hp). auto.
      * rewrite (Ping_without_data s Hd); [auto|].
        destruct (protobuf.Message.data (message s)); [reflexivity|discriminate].
    + rewrite (Ping_not_for_this_node s Hd). cbn. auto.
  - destruct (nth_error (protobuf.Message.data (message s)) 0)
      as [d0|] eqn:Hn.
    + destruct (ParseFindNodesRequest d0) as [req|] eqn:Hp.
      * destruct ((0 =? protobuf.FindNodesRequest.num_nodes_requested req)
                  || Empty (NodeId_of (protobuf.FindNodesRequest.target_node req))
                  || negb (IsValid (NodeId_of
                                      (protobuf.FindNodesRequest.target_node req))))
          eqn:Hv.
        -- rewrite (FindNodes_invalid s d0 req Hn Hp Hv). cbn. auto.
        -- rewrite (FindNodes_run s d0 req Hn Hp Hv). cbn. eauto 10.
      * rewrite (FindNodes_unparsed s d0 Hn Hp). cbn. auto.
    + rewrite (FindNodes_without_data s); [auto|].
      destruct (protobuf.Message.data (message s)); [reflexivity|discriminate].
Qed.

(** C10.  [FindNodes] and [Connect] answer a request without [source_id]
    as they answer any other, except that the [destination_id] of the
    response is cleared; it is set, to the [source_id] of the request, only
    when the request has one. *)
Theorem relay_destination_id s d0 :
  let result_find := snd (Service.FindNodes s) in
  let result_connect := snd (Service.Connect s) in
  nth_error (protobuf.Message.data (message s)) 0 = Some d0 ->
  (forall req,
     ParseFindNodesRequest d0 = Some req ->
     let target := NodeId_of (protobuf.FindNodesRequest.target_node req) in
     (0 =? protobuf.FindNodesRequest.num_nodes_requested req)
     || Empty target || negb (IsValid target) = false ->
     fst (Service.FindNodes s) = Val tt
     /\ List.length (protobuf.Message.data (message result_find)) = 1%nat
     /\ (protobuf.Message.source_id (message s) = None ->
         protobuf.Message.destination_id (message result_find) = None)
     /\ (forall source,
           protobuf.Message.source_id (message s) = Some source ->
           protobuf.Message.destination_id (message result_find)
           = Some source))
  /\ (forall req admitted s1 ret_val this_pair nat net1,
        let peer := Service.Connect_peer_node req in
        let pair := Service.Connect_peer_endpoint_pair req in
        value_or "" (protobuf.Message.destination_id (message s))
        = kKeys_identity (routing_table_ s) ->
        ParseConnectRequest d0 = Some req ->
        is_unspecified (address (external pair))
        && is_unspecified (address (local pair)) = false ->
        Service.Connect_check_node peer s = (Val admitted, s1) ->
        GetAvailableEndpoint (network_ s) (connection_id peer) pair
        = ((ret_val, this_pair, nat), net1) ->
        admitted && negb (ret_val =? kSuccess) = false ->
        fst (Service.Connect s) = Val tt
        /\ List.length (protobuf.Message.data (message result_connect)) = 1%nat
        /\ (protobuf.Message.source_id (message s) = None ->
            protobuf.Message.destination_id (message result_connect) = None)
        /\ (forall source,
              protobuf.Message.source_id (message s) = Some source ->
              protobuf.Message.destination_id (message result_connect)
              = Some source)).
Proof.
  intros result_find result_connect Hn. subst result_find result_connect.
  split.
  - intros req Hp target Hv. rewrite (FindNodes_run s d0 req Hn Hp Hv). cbn.
    repeat split; intros; congruence.
  - intros req admitted s1 ret_val this_pair nat net1 peer pair
           Hd Hp Hu Hc Hg Hr.
    destruct (AddToRudp net1 (kNodeId (routing_table_ s))
                        (kConnectionId (routing_table_ s)) (node_id peer)
                        (connection_id peer) pair false
                        (client_mode (routing_table_ s)))
      as [add_result net2] eqn:Ha.
    rewrite (Connect_run s d0 req admitted s1 ret_val this_pair nat net1
                         add_result net2 Hd Hn Hp Hu Hc Hg Ha).
    destruct admitted; cbn [andb] in Hr.
    + apply negb_false_iff in Hr. rewrite Hr.
      destruct (kSuccess =? add_result); cbn;
        repeat split; intros; congruence.
    + cbn. repeat split; intros; congruence.
Qed.

(** ** Further properties of the handlers *)

Lemma Connect_without_data s :
  value_or "" (protobuf.Message.destination_id (message s))
  = kKeys_identity (routing_table_ s) ->
  protobuf.Message.data (message s) = [] ->
  Service.Connect s = (Fault, s).
Proof.
  open_state s. intros Hd ->.
  unfold_service. cbn. rewrite Hd, String.eqb_refl. reflexivity.
Qed.

Lemma no_data_iff (l : list bytes) : nth_error l 0 = None <-> l = [].
Proof.
  destruct l; cbn; split; intros H; try reflexivity; discriminate H.
Qed.

(** The paths of each handler, as a case analysis on an arbitrary state. *)
Lemma Ping_cases s :
  (value_or "" (protobuf.Message.destination_id (message s))
   <> kKeys_identity (routing_table_ s)
   /\ Service.Ping s = (Returned, with_message protobuf.Message.Clear s))
  \/ (value_or "" (protobuf.Message.destination_id (message s))
      = kKeys_identity (routing_table_ s)
      /\ ((protobuf.Message.data (message s) = []
           /\ Service.Ping s = (Fault, s))
          \/ (exists d0,
                nth_error (protobuf.Message.data (message s)) 0 = Some d0
                /\ ((ParsePingRequest d0 = None
                     /\ Service.Ping s = (Returned, s))
                    \/ exists req, ParsePingRequest d0 = Some req)))).
Proof.
  destruct (String.eqb_spec
              (value_or "" (protobuf.Message.destination_id (message s)))
              (kKeys_identity (routing_table_ s))) as [Hd|Hd].
  - right. split; [exact Hd|].
    destruct (nth_error (protobuf.Message.data (message s)) 0)
      as [d0|] eqn:Hn.
    + right. exists d0. split; [reflexivity|].
      destruct (ParsePingRequest d0) as [req|] eqn:Hp.
      * right. now exists req.
      * left. split; [reflexivity|]. now apply Ping_unparsed with d0.
    + left. apply no_data_iff in Hn. split; [exact Hn|].
      now apply Ping_without_data.
  - left. split; [exact Hd|]. now apply Ping_not_for_this_node.
Qed.

Lemma FindNodes_cases s :
  (protobuf.Message.data (message s) = []
   /\ Service.FindNodes s = (Fault, s))
  \/ (protobuf.Message.data (message s) <> []
      /\ Service.FindNodes s
         = (Returned, with_message protobuf.Message.Clear s))
  \/ (exists d0 req,
        nth_error (protobuf.Message.data (message s)) 0 = Some d0
        /\ ParseFindNodesRequest d0 = Some req
        /\ (0 =? protobuf.FindNodesRequest.num_nodes_requested req)
           || Empty (NodeId_of (protobuf.FindNodesRequest.target_node req))
           || negb (IsValid (NodeId_of
                               (protobuf.FindNodesRequest.target_node req)))
           = false).
Proof.
  destruct (nth_error (protobuf.Message.data (message s)) 0)
    as [d0|] eqn:Hn.
  - assert (Hne : protobuf.Message.data (message s) <> []).
    { intros E. rewrite E in Hn. discriminate Hn. }
    destruct (ParseFindNodesRequest d0) as [req|] eqn:Hp.
    + destruct ((0 =? protobuf.FindNodesRequest.num_nodes_requested req)
                || Empty (NodeId_of
                            (protobuf.FindNodesRequest.target_node req))
                || negb (IsValid
                           (NodeId_of
                              (protobuf.FindNodesRequest.target_node req))))
        eqn:Hv.
      * right. left. split; [exact Hne|].
        now apply FindNodes_invalid with d0 req.
      * right. right. now exists d0, req.
    + right. left. split; [exact Hne|]. now apply FindNodes_unparsed with d0.
  - left. apply no_data_iff in Hn. split; [exact Hn|].
    now apply FindNodes_without_data.
Qed.

Lemma ConnectSuccess_cases s :
  (protobuf.Message.data (message s) = []
   /\ Service.ConnectSuccess s = (Fault, s))
  \/ (protobuf.Message.data (message s) <> []
      /\ (Service.ConnectSuccess s
          = (Returned, with_message protobuf.Message.Clear s)
          \/ Service.ConnectSuccess s = (Returned, s)))
  \/ (exists d0 cs0,
        nth_error (protobuf.Message.data (message s)) 0 = Some d0
        /\ ParseConnectSuccess d0 = Some cs0
        /\ Empty (NodeId_of (protobuf.ConnectSuccess.node_id cs0))
           || Empty (NodeId_of (protobuf.ConnectSuccess.connection_id cs0))
           = false).
Proof.
  destruct (nth_error (protobuf.Message.data (message s)) 0)
    as [d0|] eqn:Hn.
  - assert (Hne : protobuf.Message.data (message s) <> []).
    { intros E. rewrite E in Hn. discriminate Hn. }
    destruct (ParseConnectSuccess d0) as [cs0|] eqn:Hp.
    + destruct (Empty (NodeId_of (protobuf.ConnectSuccess.node_id cs0))
                || Empty (NodeId_of
                            (protobuf.ConnectSuccess.connection_id cs0)))
        eqn:He.
      * right. left. split; [exact Hne|]. right.
        now apply ConnectSuccess_empty_id with d0 cs0.
      * right. right. now exists d0, cs0.
    + right. left. split; [exact Hne|]. left.
      now apply ConnectSuccess_unparsed with d0.
  - left. apply no_data_iff in Hn. split; [exact Hn|].
    now apply ConnectSuccess_without_data.
Qed.

Lemma Connect_cases s :
  (Service.Connect s = (Returned, with_message protobuf.Message.Clear s)
   /\ (value_or "" (protobuf.Message.destination_id (message s))
       <> kKeys_identity (routing_table_ s)
       \/ protobuf.Message.data (message s) <> []))
  \/ (value_or "" (protobuf.Message.destination_id (message s))
      = kKeys_identity (routing_table_ s)
      /\ protobuf.Message.data (message s) = []
      /\ Service.Connect s = (Fault, s))
  \/ (exists d0 req,
        value_or "" (protobuf.Message.destination_id (message s))
        = kKeys_identity (routing_table_ s)
        /\ nth_error (protobuf.Message.data (message s)) 0 = Some d0
        /\ ParseConnectRequest d0 = Some req
        /\ is_unspecified
             (address (external (Service.Connect_peer_endpoint_pair req)))
           && is_unspecified
                (address (local (Service.Connect_peer_endpoint_pair req)))
           = false).
Proof.
  destruct (String.eqb_spec
              (value_or "" (protobuf.Message.destination_id (message s)))
              (kKeys_identity (routing_table_ s))) as [Hd|Hd].
  - destruct (nth_error (protobuf.Message.data (message s)) 0)
      as [d0|] eqn:Hn.
    + assert (Hne : protobuf.Message.data (message s) <> []).
      { intros E. rewrite E in Hn. discriminate Hn. }
      destruct (ParseConnectRequest d0) as [req|] eqn:Hp.
      * destruct (is_unspecified
                    (address (external
                                (Service.Connect_peer_endpoint_pair req)))
                  && is_unspecified
                       (address (local
                                   (Service.Connect_peer_endpoint_pair req))))
          eqn:Hu.
        -- left. split; [|now right].
           now apply Connect_unspecified with d0 req.
        -- right. right. now exists d0, req.
      * left. split; [|now right]. now apply Connect_unparsed with d0.
    + right. left. apply no_data_iff in Hn. repeat split; try assumption.
      now apply Connect_without_data.
  - left. split; [|now left]. now apply Connect_not_for_this_node.
Qed.

(** What [Connect] does once the request is accepted for processing, with
    the answers of the collaborators named. *)
Lemma Connect_processed s d0 req :
  value_or "" (protobuf.Message.destination_id (message s))
  = kKeys_identity (routing_table_ s) ->
  nth_error (protobuf.Message.data (message s)) 0 = Some d0 ->
  ParseConnectRequest d0 = Some req ->
  is_unspecified (address (external (Service.Connect_peer_endpoint_pair req)))
  && is_unspecified (address (local (Service.Connect_peer_endpoint_pair req)))
  = false ->
  exists admitted s1 ret_val this_pair nat net1 add_result net2,
    Service.Connect_check_node (Service.Connect_peer_node req) s
    = (Val admitted, s1)
    /\ (exists l, calls s1 = calls s ++ l
                  /\ forall c, In c l ->
                       (forall p, c <> call_AddPendingNode p)
                       /\ (forall m a b, c <> call_SendToDirect m a b)
                       /\ (forall t n, c <> call_GetClosestNodes t n))
    /\ GetAvailableEndpoint
         (network_ s) (connection_id (Service.Connect_peer_node req))
         (Service.Connect_peer_endpoint_pair req)
       = ((ret_val, this_pair, nat), net1)
    /\ AddToRudp net1 (kNodeId (routing_table_ s))
                 (kConnectionId (routing_table_ s))
                 (node_id (Service.Connect_peer_node req))
                 (connection_id (Service.Connect_peer_node req))
                 (Service.Connect_peer_endpoint_pair req) false
                 (client_mode (routing_table_ s))
       = (add_result, net2).
Proof.
  intros Hd Hn Hp Hu.
  destruct (GetAvailableEndpoint
              (network_ s) (connection_id (Service.Connect_peer_node req))
              (Service.Connect_peer_endpoint_pair req))
    as [[[ret_val this_pair] nat] net1] eqn:Hg.
  destruct (AddToRudp net1 (kNodeId (routing_table_ s))
                      (kConnectionId (routing_table_ s))
                      (node_id (Service.Connect_peer_node req))
                      (connection_id (Service.Connect_peer_node req))
                      (Service.Connect_peer_endpoint_pair req) false
                      (client_mode (routing_table_ s)))
    as [add_result net2] eqn:Ha.
  rewrite Connect_check_node_run.
  destruct (value_or false (protobuf.Message.client_node (message s))).
  - eexists _, _, ret_val, this_pair, nat, net1, add_result, net2.
    split; [reflexivity|]. split; [|split; [reflexivity|exact Ha]].
    eexists. split.
    + cbn. rewrite <- app_assoc. reflexivity.
    + cbn. intros c [<-|[<-|[]]]; repeat split; intros; discriminate.
  - eexists _, _, ret_val, this_pair, nat, net1, add_result, net2.
    split; [reflexivity|]. split; [|split; [reflexivity|exact Ha]].
    eexists. split.
    + cbn. reflexivity.
    + cbn. intros c [<-|[]]; repeat split; intros; discriminate.
Qed.

(** Splits the goal along the paths of [Connect]; [H] is the equation of
    the path. *)
Ltac Connect_paths s H :=
  let d0 := fresh "d0" in
  let req := fresh "req" in
  let Hd := fresh "Hd" in
  let Hn := fresh "Hn" in
  let Hp := fresh "Hp" in
  let Hu := fresh "Hu" in
  destruct (Connect_cases s)
    as [[H _]|[(_ & _ & H)|(d0 & req & Hd & Hn & Hp & Hu)]];
  [ | |
    let admitted := fresh "admitted" in
    let s1 := fresh "s1" in
    let ret_val := fresh "ret_val" in
    let this_pair := fresh "this_pair" in
    let nat := fresh "nat" in
    let net1 := fresh "net1" in
    let add_result := fresh "add_result" in
    let net2 := fresh "net2" in
    let Hc := fresh "Hc" in
    let l := fresh "l" in
    let Hl := fresh "Hl" in
    let Hlc := fresh "Hlc" in
    let Hg := fresh "Hg" in
    let Ha := fresh "Ha" in
    destruct (Connect_processed s d0 req Hd Hn Hp Hu)
      as (admitted & s1 & ret_val & this_pair & nat & net1 & add_result
          & net2 & Hc & (l & Hl & Hlc) & Hg & Ha);
    pose proof (Connect_run s d0 req admitted s1 ret_val this_pair nat net1
                            add_result net2 Hd Hn Hp Hu Hc Hg Ha) as H;
    cbv zeta in H;
    destruct admitted;
    [ destruct (ret_val =? kSuccess);
      [ destruct (kSuccess =? add_result) | ] | ] ].

(** X1.  A payload that does not parse is dropped by [Connect],
    [FindNodes] and [ConnectSuccess]: the handler returns with the envelope
    cleared; the collaborators are as they were and no call was made. *)
Theorem unparsed_payload_dropped s d0 :
  nth_error (protobuf.Message.data (message s)) 0 = Some d0 ->
  (ParseConnectRequest d0 = None ->
   Service.Connect s = (Returned, with_message protobuf.Message.Clear s))
  /\ (ParseFindNodesRequest d0 = None ->
      Service.FindNodes s = (Returned, with_message protobuf.Message.Clear s))
  /\ (ParseConnectSuccess d0 = None ->
      Service.ConnectSuccess s
      = (Returned, with_message protobuf.Message.Clear s)).
Proof.
  intros Hn. repeat split; intros Hp.
  - destruct (String.eqb_spec
                (value_or "" (protobuf.Message.destination_id (message s)))
                (kKeys_identity (routing_table_ s))) as [Hd|Hd].
    + now apply Connect_unparsed with d0.
    + now apply Connect_not_for_this_node.
  - now apply FindNodes_unparsed with d0.
  - now apply ConnectSuccess_unparsed with d0.
Qed.

(** X2.  [FindNodes] rejects a request that asks for no node, or whose
    target is empty or not valid: it returns with the envelope cleared and
    does not query the routing table. *)
Theorem FindNodes_rejects_invalid s d0 req :
  let target := NodeId_of (protobuf.FindNodesRequest.target_node req) in
  nth_error (protobuf.Message.data (message s)) 0 = Some d0 ->
  ParseFindNodesRequest d0 = Some req ->
  protobuf.FindNodesRequest.num_nodes_requested req = 0
  \/ Empty target = true \/ IsValid target = false ->
  Service.FindNodes s = (Returned, with_message protobuf.Message.Clear s).
Proof.
  intros target Hn Hp Hv. apply FindNodes_invalid with d0 req; trivial.
  fold target. destruct Hv as [-> |[-> | ->]].
  - reflexivity.
  - now rewrite orb_true_r.
  - apply orb_true_r.
Qed.

(** X3.  [ConnectSuccess] from a requester with both ids present adds the
    peer to the pending nodes of the routing table and clears the envelope;
    it makes that one call, and the client table and the transport are as
    they were. *)
Theorem ConnectSuccess_adds_pending_node s d0 cs0 :
  let peer :=
    mkNodeInfo (NodeId_of (protobuf.ConnectSuccess.node_id cs0))
               (NodeId_of (protobuf.ConnectSuccess.connection_id cs0)) in
  nth_error (protobuf.Message.data (message s)) 0 = Some d0 ->
  ParseConnectSuccess d0 = Some cs0 ->
  Empty (node_id peer) = false ->
  Empty (connection_id peer) = false ->
  protobuf.ConnectSuccess.requestor cs0 = true ->
  Service.ConnectSuccess s =
  (Val tt,
   mkCtx protobuf.Message.Clear
         (AddPendingNode (routing_table_ s) peer)
         (non_routing_table_ s) (network_ s) (clock s)
         (calls s ++ [call_AddPendingNode peer])).
Proof.
  intros peer Hn Hp He1 He2 Hr.
  apply (ConnectSuccess_from_requester s d0 cs0 Hn Hp); [|exact Hr].
  fold peer. now rewrite He1, He2.
Qed.

(** X4.  [ConnectSuccess] from a responder with both ids present sends one
    message, directly to the peer's node id and connection id: the
    acknowledgement that [rpcs::ConnectSuccessAcknoledgement] builds from
    the peer's node id, the local node id and connection id, the requestor
    flag set, an empty list of close ids and the local client mode.  The
    envelope is cleared and the tables are as they were. *)
Theorem ConnectSuccess_acknowledges_responder s d0 cs0 :
  let rt := routing_table_ s in
  let peer :=
    mkNodeInfo (NodeId_of (protobuf.ConnectSuccess.node_id cs0))
               (NodeId_of (protobuf.ConnectSuccess.connection_id cs0)) in
  let connect_success_ack :=
    ConnectSuccessAcknoledgement (node_id peer) (kNodeId rt)
                                 (kConnectionId rt) true [] (client_mode rt) in
  nth_error (protobuf.Message.data (message s)) 0 = Some d0 ->
  ParseConnectSuccess d0 = Some cs0 ->
  Empty (node_id peer) = false ->
  Empty (connection_id peer) = false ->
  protobuf.ConnectSuccess.requestor cs0 = false ->
  Service.ConnectSuccess s =
  (Val tt,
   mkCtx protobuf.Message.Clear rt (non_routing_table_ s)
         (SendToDirect (network_ s) connect_success_ack (node_id peer)
                       (connection_id peer))
         (clock s)
         (calls s ++ [call_SendToDirect connect_success_ack (node_id peer)
                                        (connection_id peer)])).
Proof.
  intros rt peer ack Hn Hp He1 He2 Hr.
  apply (ConnectSuccess_from_responder s d0 cs0 Hn Hp); [|exact Hr].
  fold peer. now rewrite He1, He2.
Qed.

(** X5.  When the admission test fails, [Connect] answers with
    [answer = false] and no contact block; it makes no call on the
    transport, which is as it was, as are the tables. *)
Theorem Connect_refused s d0 req s1 :
  let rt := routing_table_ s in
  let peer := Service.Connect_peer_node req in
  let pair := Service.Connect_peer_endpoint_pair req in
  value_or "" (protobuf.Message.destination_id (message s))
  = kKeys_identity rt ->
  nth_error (protobuf.Message.data (message s)) 0 = Some d0 ->
  ParseConnectRequest d0 = Some req ->
  is_unspecified (address (external pair))
  && is_unspecified (address (local pair)) = false ->
  Service.Connect_check_node peer s = (Val false, s1) ->
  Service.Connect s =
  (Val tt,
   mkCtx
     (protobuf.Message.mk
        (Some (kKeys_identity rt))
        (protobuf.Message.source_id (message s))
        [SerializeConnectResponse
           (protobuf.ConnectResponse.mk
              (Some false) None (Some (clock s)) (Some d0)
              (Some (value_or "" (protobuf.Message.signature (message s)))))]
        (protobuf.Message.signature (message s))
        (Some false) (Some true) (Some (client_mode rt)) (Some 1)
        (Some Parameters_hops_to_live) [])
     rt (non_routing_table_ s) (network_ s) (clock s) (calls s1)).
Proof.
  intros rt peer pair Hd Hn Hp Hu Hc.
  destruct (GetAvailableEndpoint (network_ s) (connection_id peer) pair)
    as [[[ret_val this_pair] nat] net1] eqn:Hg.
  destruct (AddToRudp net1 (kNodeId rt) (kConnectionId rt) (node_id peer)
                      (connection_id peer) pair false (client_mode rt))
    as [add_result net2] eqn:Ha.
  exact (Connect_run s d0 req false s1 ret_val this_pair nat net1 add_result
                     net2 Hd Hn Hp Hu Hc Hg Ha).
Qed.

(** X6.  When the admission test succeeds and [GetAvailableEndpoint] does
    not return [kSuccess], [Connect] sends no reply: it returns with the
    envelope cleared, without calling [AddToRudp]; the transport is in the
    state [GetAvailableEndpoint] left it in. *)
Theorem Connect_endpoint_unavailable s d0 req s1 ret_val this_pair nat net1 :
  let rt := routing_table_ s in
  let peer := Service.Connect_peer_node req in
  let pair := Service.Connect_peer_endpoint_pair req in
  value_or "" (protobuf.Message.destination_id (message s))
  = kKeys_identity rt ->
  nth_error (protobuf.Message.data (message s)) 0 = Some d0 ->
  ParseConnectRequest d0 = Some req ->
  is_unspecified (address (external pair))
  && is_unspecified (address (local pair)) = false ->
  Service.Connect_check_node peer s = (Val true, s1) ->
  GetAvailableEndpoint (network_ s) (connection_id peer) pair
  = ((ret_val, this_pair, nat), net1) ->
  ret_val <> kSuccess ->
  Service.Connect s =
  (Returned,
   mkCtx protobuf.Message.Clear rt (non_routing_table_ s) net1 (clock s)
         (calls s1 ++ [call_GetAvailableEndpoint (connection_id peer) pair])).
Proof.
  intros rt peer pair Hd Hn Hp Hu Hc Hg Hr.
  destruct (AddToRudp net1 (kNodeId rt) (kConnectionId rt) (node_id peer)
                      (connection_id peer) pair false (client_mode rt))
    as [add_result net2] eqn:Ha.
  rewrite (Connect_run s d0 req true s1 ret_val this_pair nat net1 add_result
                       net2 Hd Hn Hp Hu Hc Hg Ha).
  apply Z.eqb_neq in Hr. now rewrite Hr.
Qed.

(** X7.  When the admission test and [GetAvailableEndpoint] succeed,
    [Connect] calls [AddToRudp] once, after [GetAvailableEndpoint], with
    the local node id and connection id, the peer's ids and endpoint pair,
    [requestor = false] and the local client mode; it then replies whatever
    [AddToRudp] returns, and the transport is in the state [AddToRudp] left
    it in. *)
Theorem Connect_adds_connection s d0 req s1 this_pair nat net1 add_result
        net2 :
  let rt := routing_table_ s in
  let peer := Service.Connect_peer_node req in
  let pair := Service.Connect_peer_endpoint_pair req in
  let result := snd (Service.Connect s) in
  value_or "" (protobuf.Message.destination_id (message s))
  = kKeys_identity rt ->
  nth_error (protobuf.Message.data (message s)) 0 = Some d0 ->
  ParseConnectRequest d0 = Some req ->
  is_unspecified (address (external pair))
  && is_unspecified (address (local pair)) = false ->
  Service.Connect_check_node peer s = (Val true, s1) ->
  GetAvailableEndpoint (network_ s) (connection_id peer) pair
  = ((kSuccess, this_pair, nat), net1) ->
  AddToRudp net1 (kNodeId rt) (kConnectionId rt) (node_id peer)
            (connection_id peer) pair false (client_mode rt)
  = (add_result, net2) ->
  fst (Service.Connect s) = Val tt
  /\ network_ result = net2
  /\ calls result
     = calls s1
       ++ [call_GetAvailableEndpoint (connection_id peer) pair;
           call_AddToRudp (kNodeId rt) (kConnectionId rt) (node_id peer)
                          (connection_id peer) pair false (client_mode rt)]
  /\ List.length (protobuf.Message.data (message result)) = 1%nat.
Proof.
  intros rt peer pair result Hd Hn Hp Hu Hc Hg Ha. subst result.
  rewrite (Connect_run s d0 req true s1 kSuccess this_pair nat net1
                       add_result net2 Hd Hn Hp Hu Hc Hg Ha).
  change (kSuccess =? kSuccess) with true. cbv iota.
  destruct (kSuccess =? add_result); cbn; rewrite <- ?app_assoc; auto.
Qed.

(** X8.  Whatever the envelope, [Connect] leaves the routing table and
    the client table as they were; it never calls [AddPendingNode],
    [SendToDirect] or [GetClosestNodes]. *)
Theorem Connect_frame s :
  let result := snd (Service.Connect s) in
  routing_table_ result = routing_table_ s
  /\ non_routing_table_ result = non_routing_table_ s
  /\ exists l,
       calls result = calls s ++ l
       /\ forall c, In c l ->
            (forall p, c <> call_AddPendingNode p)
            /\ (forall m a b, c <> call_SendToDirect m a b)
            /\ (forall t n, c <> call_GetClosestNodes t n).
Proof.
  intros result. subst result.
  assert (Hnil : forall c : Call, In c [] ->
            (forall p, c <> call_AddPendingNode p)
            /\ (forall m a b, c <> call_SendToDirect m a b)
            /\ (forall t n, c <> call_GetClosestNodes t n))
    by (intros c []).
  Connect_paths s H; rewrite H; cbn [snd routing_table_ non_routing_table_
                                     calls with_message];
    (split; [reflexivity|]); (split; [reflexivity|]).
  - exists []. now rewrite app_nil_r.
  - exists []. now rewrite app_nil_r.
  - eexists. rewrite Hl, <- app_assoc. split; [reflexivity|].
    intros c Hin. apply in_app_or in Hin. destruct Hin as [Hin|Hin].
    + now apply Hlc.
    + destruct Hin as [<-|[<-|[]]]; repeat split; intros; discriminate.
  - eexists. rewrite Hl, <- app_assoc. split; [reflexivity|].
    intros c Hin. apply in_app_or in Hin. destruct Hin as [Hin|Hin].
    + now apply Hlc.
    + destruct Hin as [<-|[<-|[]]]; repeat split; intros; discriminate.
  - eexists. rewrite Hl, <- app_assoc. split; [reflexivity|].
    intros c Hin. apply in_app_or in Hin. destruct Hin as [Hin|Hin].
    + now apply Hlc.
    + destruct Hin as [<-|[]]; repeat split; intros; discriminate.
  - exists l. split; [exact Hl|exact Hlc].
Qed.

(** X9.  Whatever the envelope, [ConnectSuccess] leaves the client table
    as it was and does one of three things: nothing to the collaborators;
    one [AddPendingNode], the transport untouched; or one [SendToDirect] to
    the ids of one peer, the routing table untouched. *)
Theorem ConnectSuccess_frame s :
  let result := snd (Service.ConnectSuccess s) in
  non_routing_table_ result = non_routing_table_ s
  /\ ((calls result = calls s
       /\ routing_table_ result = routing_table_ s
       /\ network_ result = network_ s)
      \/ (exists peer,
            calls result = calls s ++ [call_AddPendingNode peer]
            /\ routing_table_ result = AddPendingNode (routing_table_ s) peer
            /\ network_ result = network_ s)
      \/ (exists m peer,
            calls result
            = calls s ++ [call_SendToDirect m (node_id peer)
                                            (connection_id peer)]
            /\ routing_table_ result = routing_table_ s
            /\ network_ result
               = SendToDirect (network_ s) m (node_id peer)
                              (connection_id peer))).
Proof.
  intros result. subst result.
  destruct (ConnectSuccess_cases s)
    as [[_ H]|[[_ [H|H]]|(d0 & cs0 & Hn & Hp & He)]].
  - rewrite H. cbn. auto.
  - rewrite H. cbn. auto.
  - rewrite H. cbn. auto.
  - destruct (protobuf.ConnectSuccess.requestor cs0) eqn:Hr.
    + rewrite (ConnectSuccess_from_requester s d0 cs0 Hn Hp He Hr). cbn.
      split; [reflexivity|]. right. left. eauto.
    + rewrite (ConnectSuccess_from_responder s d0 cs0 Hn Hp He Hr). cbn.
      split; [reflexivity|]. right. right.
      eexists _, (mkNodeInfo _ _). cbn. eauto.
Qed.

(** X10.  A handler has no defined outcome exactly when it reads
    [data(0)] of an envelope without data: [FindNodes] and [ConnectSuccess]
    whenever [data] is empty, [Ping] and [Connect] when [data] is empty and
    the envelope is for this node.  Nothing has changed at that point. *)
Theorem handlers_fault_iff s :
  let no_data := protobuf.Message.data (message s) = [] in
  let for_this_node :=
    value_or "" (protobuf.Message.destination_id (message s))
    = kKeys_identity (routing_table_ s) in
  ((fst (Service.Ping s) = Fault <-> no_data /\ for_this_node)
   /\ (fst (Service.Connect s) = Fault <-> no_data /\ for_this_node)
   /\ (fst (Service.FindNodes s) = Fault <-> no_data)
   /\ (fst (Service.ConnectSuccess s) = Fault <-> no_data))
  /\ ((no_data /\ for_this_node -> Service.Ping s = (Fault, s))
      /\ (no_data /\ for_this_node -> Service.Connect s = (Fault, s))
      /\ (no_data -> Service.FindNodes s = (Fault, s))
      /\ (no_data -> Service.ConnectSuccess s = (Fault, s))).
Proof.
  intros no_data for_this_node. subst no_data for_this_node.
  assert (HP : protobuf.Message.data (message s) = []
               /\ value_or "" (protobuf.Message.destination_id (message s))
                  = kKeys_identity (routing_table_ s) ->
               Service.Ping s = (Fault, s))
    by (intros [Hn Hd]; now apply Ping_without_data).
  assert (HC : protobuf.Message.data (message s) = []
               /\ value_or "" (protobuf.Message.destination_id (message s))
                  = kKeys_identity (routing_table_ s) ->
               Service.Connect s = (Fault, s))
    by (intros [Hn Hd]; now apply Connect_without_data).
  split;
    [|split; [exact HP|split; [exact HC|split;
        [apply FindNodes_without_data|apply ConnectSuccess_without_data]]]].
  split; [|split; [|split]]; split.
  - intros H.
    destruct (Ping_cases s)
      as [[_ E]|[Hd [[Hn _]|(d0 & Hn & [[_ E]|[req Hp]])]]];
      try (rewrite E in H; discriminate H); try (split; assumption).
    rewrite (Ping_parsed s d0 req Hd Hn Hp) in H. discriminate H.
  - intros H. now rewrite (HP H).
  - intros H.
    destruct (Connect_cases s)
      as [[E _]|[(Hd & Hn & _)|(d0 & req & Hd & Hn & Hp & Hu)]].
    + rewrite E in H. discriminate H.
    + split; assumption.
    + destruct (Connect_processed s d0 req Hd Hn Hp Hu)
        as (admitted & s1 & ret_val & this_pair & nat & net1 & add_result
            & net2 & Hc & _ & Hg & Ha).
      rewrite (Connect_run s d0 req admitted s1 ret_val this_pair nat net1
                           add_result net2 Hd Hn Hp Hu Hc Hg Ha) in H.
      destruct admitted, (ret_val =? kSuccess), (kSuccess =? add_result);
        discriminate H.
  - intros H. now rewrite (HC H).
  - intros H.
    destruct (FindNodes_cases s) as [[Hn _]|[[_ E]|(d0 & req & Hn & Hp & Hv)]].
    + assumption.
    + rewrite E in H. discriminate H.
    + rewrite (FindNodes_run s d0 req Hn Hp Hv) in H. discriminate H.
  - intros H. now rewrite (FindNodes_without_data s H).
  - intros H.
    destruct (ConnectSuccess_cases s)
      as [[Hn _]|[[_ [E|E]]|(d0 & cs0 & Hn & Hp & He)]].
    + assumption.
    + rewrite E in H. discriminate H.
    + rewrite E in H. discriminate H.
    + destruct (protobuf.ConnectSuccess.requestor cs0) eqn:Hr.
      * rewrite (ConnectSuccess_from_requester s d0 cs0 Hn Hp He Hr) in H.
        discriminate H.
      * rewrite (ConnectSuccess_from_responder s d0 cs0 Hn Hp He Hr) in H.
        discriminate H.
  - intros H. now rewrite (ConnectSuccess_without_data s H).
Qed.

(** X11.  Whenever [Connect] or [FindNodes] runs to its end, the envelope
    is a reply: one payload, [source_id] the identity of this node,
    [destination_id] the [source_id] field of the request, [request] false,
    [direct] true, [replication] 1, [client_node] the local client mode,
    [hops_to_live] the parameter and no route history; the [signature]
    field is the one of the request. *)
Theorem reply_envelope s :
  let reply (result : Ctx RT NRT NET) :=
    List.length (protobuf.Message.data (message result)) = 1%nat
    /\ protobuf.Message.source_id (message result)
       = Some (kKeys_identity (routing_table_ s))
    /\ protobuf.Message.destination_id (message result)
       = protobuf.Message.source_id (message s)
    /\ protobuf.Message.signature (message result)
       = protobuf.Message.signature (message s)
    /\ protobuf.Message.request (message result) = Some false
    /\ protobuf.Message.direct (message result) = Some true
    /\ protobuf.Message.replication (message result) = Some 1
    /\ protobuf.Message.client_node (message result)
       = Some (client_mode (routing_table_ s))
    /\ protobuf.Message.hops_to_live (message result)
       = Some Parameters_hops_to_live
    /\ protobuf.Message.route_history (message result) = [] in
  (fst (Service.Connect s) = Val tt -> reply (snd (Service.Connect s)))
  /\ (fst (Service.FindNodes s) = Val tt -> reply (snd (Service.FindNodes s))).
Proof.
  intros reply. subst reply. split; intros H.
  - destruct (Connect_cases s)
      as [[E _]|[(_ & _ & E)|(d0 & req & Hd & Hn & Hp & Hu)]].
    + rewrite E in H. discriminate H.
    + rewrite E in H. discriminate H.
    + destruct (Connect_processed s d0 req Hd Hn Hp Hu)
        as (admitted & s1 & ret_val & this_pair & nat & net1 & add_result
            & net2 & Hc & _ & Hg & Ha).
      rewrite (Connect_run s d0 req admitted s1 ret_val this_pair nat net1
                           add_result net2 Hd Hn Hp Hu Hc Hg Ha) in H |- *.
      destruct admitted, (ret_val =? kSuccess), (kSuccess =? add_result);
        try discriminate H; cbn; auto 12.
  - destruct (FindNodes_cases s) as [[_ E]|[[_ E]|(d0 & req & Hn & Hp & Hv)]].
    + rewrite E in H. discriminate H.
    + rewrite E in H. discriminate H.
    + rewrite (FindNodes_run s d0 req Hn Hp Hv). cbn. auto 12.
Qed.

(** X12.  Whenever [Connect] or [FindNodes] returns early, the envelope
    is cleared. *)
Theorem early_return_clears s :
  (fst (Service.Connect s) = Returned ->
   message (snd (Service.Connect s)) = protobuf.Message.Clear)
  /\ (fst (Service.FindNodes s) = Returned ->
      message (snd (Service.FindNodes s)) = protobuf.Message.Clear).
Proof.
  split; intros H.
  - destruct (Connect_cases s)
      as [[E _]|[(_ & _ & E)|(d0 & req & Hd & Hn & Hp & Hu)]].
    + rewrite E. reflexivity.
    + rewrite E in H. discriminate H.
    + destruct (Connect_processed s d0 req Hd Hn Hp Hu)
        as (admitted & s1 & ret_val & this_pair & nat & net1 & add_result
            & net2 & Hc & _ & Hg & Ha).
      rewrite (Connect_run s d0 req admitted s1 ret_val this_pair nat net1
                           add_result net2 Hd Hn Hp Hu Hc Hg Ha) in H |- *.
      destruct admitted, (ret_val =? kSuccess), (kSuccess =? add_result);
        try discriminate H; reflexivity.
  - destruct (FindNodes_cases s) as [[_ E]|[[_ E]|(d0 & req & Hn & Hp & Hv)]].
    + rewrite E in H. discriminate H.
    + rewrite E. reflexivity.
    + rewrite (FindNodes_run s d0 req Hn Hp Hv) in H. discriminate H.
Qed.

(** X13.  [FindNodes] and [ConnectSuccess] do not look at the
    [destination_id] of the envelope: with any other [destination_id], or
    none, the outcome, the calls and the collaborators are the same, and so
    is the envelope that [FindNodes] leaves when it had data to read. *)
Theorem destination_id_ignored s (destination : option bytes) :
  let m := message s in
  let s' :=
    with_message
      (protobuf.Message.mk
         (protobuf.Message.source_id m) destination (protobuf.Message.data m)
         (protobuf.Message.signature m) (protobuf.Message.request m)
         (protobuf.Message.direct m) (protobuf.Message.client_node m)
         (protobuf.Message.replication m) (protobuf.Message.hops_to_live m)
         (protobuf.Message.route_history m))
      s in
  (fst (Service.FindNodes s') = fst (Service.FindNodes s)
   /\ (protobuf.Message.data m <> [] ->
       Service.FindNodes s' = Service.FindNodes s))
  /\ (fst (Service.ConnectSuccess s') = fst (Service.ConnectSuccess s)
      /\ routing_table_ (snd (Service.ConnectSuccess s'))
         = routing_table_ (snd (Service.ConnectSuccess s))
      /\ network_ (snd (Service.ConnectSuccess s'))
         = network_ (snd (Service.ConnectSuccess s))
      /\ calls (snd (Service.ConnectSuccess s'))
         = calls (snd (Service.ConnectSuccess s))).
Proof.
  intros m s'.
  destruct (nth_error (protobuf.Message.data m) 0) as [d0|] eqn:Hn.
  - assert (Hn' : nth_error (protobuf.Message.data (message s')) 0 = Some d0)
      by exact Hn.
    split.
    + assert (E : Service.FindNodes s' = Service.FindNodes s).
      { destruct (ParseFindNodesRequest d0) as [req|] eqn:Hp.
        - destruct ((0 =? protobuf.FindNodesRequest.num_nodes_requested req)
                    || Empty (NodeId_of
                                (protobuf.FindNodesRequest.target_node req))
                    || negb (IsValid
                               (NodeId_of
                                  (protobuf.FindNodesRequest.target_node
                                     req)))) eqn:Hv.
          + rewrite (FindNodes_invalid s' d0 req Hn' Hp Hv).
            rewrite (FindNodes_invalid s d0 req Hn Hp Hv). reflexivity.
          + rewrite (FindNodes_run s' d0 req Hn' Hp Hv).
            rewrite (FindNodes_run s d0 req Hn Hp Hv). reflexivity.
        - rewrite (FindNodes_unparsed s' d0 Hn' Hp).
          rewrite (FindNodes_unparsed s d0 Hn Hp). reflexivity. }
      rewrite E. split; [reflexivity|]. reflexivity.
    + destruct (ParseConnectSuccess d0) as [cs0|] eqn:Hp.
      * destruct (Empty (NodeId_of (protobuf.ConnectSuccess.node_id cs0))
                  || Empty (NodeId_of
                              (protobuf.ConnectSuccess.connection_id cs0)))
          eqn:He.
        -- rewrite (ConnectSuccess_empty_id s' d0 cs0 Hn' Hp He).
           rewrite (ConnectSuccess_empty_id s d0 cs0 Hn Hp He).
           repeat split.
        -- destruct (protobuf.ConnectSuccess.requestor cs0) eqn:Hr.
           ++ rewrite (ConnectSuccess_from_requester s' d0 cs0 Hn' Hp He Hr).
              rewrite (ConnectSuccess_from_requester s d0 cs0 Hn Hp He Hr).
              repeat split.
           ++ rewrite (ConnectSuccess_from_responder s' d0 cs0 Hn' Hp He Hr).
              rewrite (ConnectSuccess_from_responder s d0 cs0 Hn Hp He Hr).
              repeat split.
      * rewrite (ConnectSuccess_unparsed s' d0 Hn' Hp).
        rewrite (ConnectSuccess_unparsed s d0 Hn Hp). repeat split.
  - apply no_data_iff in Hn.
    assert (Hn' : protobuf.Message.data (message s') = []) by exact Hn.
    rewrite (FindNodes_without_data s' Hn'), (FindNodes_without_data s Hn).
    rewrite (ConnectSuccess_without_data s' Hn').
    rewrite (ConnectSuccess_without_data s Hn).
    repeat split. intros H. now elim H.
Qed.

(** X14.  [FindNodes] queries the routing table at most once, with
    [GetClosestNodes] and a count between 0 and 65535, however many nodes
    the request asks for. *)
Theorem FindNodes_count_range s :
  exists l,
    calls (snd (Service.FindNodes s)) = calls s ++ l
    /\ (List.length l <= 1)%nat
    /\ forall c, In c l ->
         exists target count,
           c = call_GetClosestNodes target count /\ 0 <= count < 65536.
Proof.
  destruct (FindNodes_cases s) as [[_ E]|[[_ E]|(d0 & req & Hn & Hp & Hv)]].
  - exists []. rewrite E, app_nil_r. cbn. repeat split; auto. intros c [].
  - exists []. rewrite E, app_nil_r. cbn. repeat split; auto. intros c [].
  - rewrite (FindNodes_run s d0 req Hn Hp Hv). cbn [snd calls].
    eexists. split; [reflexivity|]. split; [cbn; auto|].
    intros c [<-|[]]. eexists _, _. split; [reflexivity|].
    unfold static_cast_uint16. change (2 ^ 16) with 65536.
    apply Z.mod_pos_bound. lia.
Qed.

(** X15.  [Ping] replies to a request without [source_id] with a
    [destination_id] that is present and empty. *)
Theorem Ping_reply_to_relayed s d0 req :
  value_or "" (protobuf.Message.destination_id (message s))
  = kKeys_identity (routing_table_ s) ->
  nth_error (protobuf.Message.data (message s)) 0 = Some d0 ->
  ParsePingRequest d0 = Some req ->
  protobuf.Message.source_id (message s) = None ->
  fst (Service.Ping s) = Val tt
  /\ protobuf.Message.destination_id (message (snd (Service.Ping s)))
     = Some EmptyString.
Proof.
  intros Hd Hn Hp Hs. rewrite (Ping_parsed s d0 req Hd Hn Hp). cbn.
  rewrite Hs. auto.
Qed.

(** X16.  The admission test of [Connect] comes first and consults one
    table.  For a client ([client_node] set on the envelope) it asks the
    routing table for the [closest_nodes_size]-th closest node to the local
    id and tests the client table with that node's id; otherwise it tests
    the routing table.  Every later call is on the transport. *)
Theorem Connect_admission_calls s d0 req :
  let rt := routing_table_ s in
  let peer := Service.Connect_peer_node req in
  let pair := Service.Connect_peer_endpoint_pair req in
  let furthest :=
    GetNthClosestNode rt (kNodeId rt) Parameters_closest_nodes_size in
  let admission :=
    if value_or false (protobuf.Message.client_node (message s))
    then [call_GetNthClosestNode (kNodeId rt) Parameters_closest_nodes_size;
          call_NonRoutingTable_CheckNode peer (node_id furthest)]
    else [call_CheckNode peer] in
  value_or "" (protobuf.Message.destination_id (message s))
  = kKeys_identity rt ->
  nth_error (protobuf.Message.data (message s)) 0 = Some d0 ->
  ParseConnectRequest d0 = Some req ->
  is_unspecified (address (external pair))
  && is_unspecified (address (local pair)) = false ->
  exists rest,
    calls (snd (Service.Connect s)) = calls s ++ admission ++ rest
    /\ forall c, In c rest ->
         c = call_GetAvailableEndpoint (connection_id peer) pair
         \/ c = call_AddToRudp (kNodeId rt) (kConnectionId rt) (node_id peer)
                               (connection_id peer) pair false
                               (client_mode rt).
Proof.
  intros rt peer pair furthest admission Hd Hn Hp Hu.
  destruct (Connect_processed s d0 req Hd Hn Hp Hu)
    as (admitted & s1 & ret_val & this_pair & nat & net1 & add_result
        & net2 & Hc & _ & Hg & Ha).
  rewrite (Connect_run s d0 req admitted s1 ret_val this_pair nat net1
                       add_result net2 Hd Hn Hp Hu Hc Hg Ha).
  rewrite Connect_check_node_run in Hc.
  assert (Hs1 : calls s1 = calls s ++ admission).
  { subst admission furthest peer rt.
    destruct (value_or false (protobuf.Message.client_node (message s)));
      injection Hc as _ <-; cbn; rewrite <- ?app_assoc; reflexivity. }
  fold rt peer pair.
  destruct admitted;
    [destruct (ret_val =? kSuccess); [destruct (kSuccess =? add_result)|]|];
    cbn [snd calls]; rewrite Hs1, <- ?app_assoc.
  - eexists. split; [reflexivity|]. intros c [<-|[<-|[]]]; auto.
  - eexists. split; [reflexivity|]. intros c [<-|[<-|[]]]; auto.
  - eexists. split; [reflexivity|]. intros c [<-|[]]; auto.
  - exists []. rewrite app_nil_r. split; [reflexivity|]. intros c [].
Qed.

End Properties.

(** ** The statements on the sample node *)

Import Sample SampleCodec.

(** The hypotheses of [Connect_response] hold of the connect request of
    node 5, which the sample node admits and answers with [answer = true]. *)
Lemma Connect_response_witness :
  let s := Scenario.state (Scenario.request Scenario.requester
                                            Scenario.this_node
                                            Scenario.connect_from_5) in
  let result := snd (Scenario.Connect s) in
  fst (Scenario.Connect s) = Val tt
  /\ protobuf.Message.data (message result)
     = [SerializeConnectResponse
          (protobuf.ConnectResponse.mk
             (Some true)
             (Some (protobuf.Contact.mk
                      (id_bytes 32) (id_bytes 33)
                      (SetProtobufEndpoint (Scenario.endpoint 3325256705))
                      (SetProtobufEndpoint (Scenario.endpoint 167772161))
                      (NatTypeProtobuf kOther)))
             (Some 1000) (Some Scenario.connect_from_5) (Some "signature"))]
  /\ protobuf.Message.direct (message result) = Some true
  /\ protobuf.Message.replication (message result) = Some 1
  /\ protobuf.Message.request (message result) = Some false
  /\ protobuf.Message.destination_id (message result) = Scenario.requester.
Proof.
  intros s result.
  exact (Connect_response s _ _ _ _ _ _ _ _ _ _
                          eq_refl eq_refl eq_refl eq_refl eq_refl eq_refl
                          eq_refl).
Defined.

(** The hypothesis of [Ping_Connect_not_for_this_node] holds of a ping
    addressed to another node. *)
Lemma Ping_Connect_not_for_this_node_witness :
  let s := Scenario.state (Scenario.request Scenario.requester
                                            (Some "elsewhere") "ping|999") in
  Scenario.Ping s = (Returned, with_message protobuf.Message.Clear s)
  /\ Scenario.Connect s = (Returned, with_message protobuf.Message.Clear s).
Proof.
  intros s. apply (Ping_Connect_not_for_this_node s).
  vm_compute. discriminate.
Defined.

(** C2 fails for [FindNodes] and [ConnectSuccess], which do not look at
    [destination_id]: on an envelope addressed to another node [FindNodes]
    leaves a response in the envelope, and [ConnectSuccess] adds the sender
    to the pending nodes of the routing table. *)
Lemma not_for_this_node_counterexample :
  let f := Scenario.state (Scenario.request Scenario.requester
                                            (Some "elsewhere")
                                            Scenario.find_near_5) in
  let c := Scenario.state (Scenario.request Scenario.requester
                                            (Some "elsewhere")
                                            Scenario.success_from_requester) in
  value_or "" (protobuf.Message.destination_id (message f))
  <> kKeys_identity (routing_table_ f)
  /\ message (snd (Scenario.FindNodes f)) <> protobuf.Message.Clear
  /\ value_or "" (protobuf.Message.destination_id (message c))
     <> kKeys_identity (routing_table_ c)
  /\ pending (routing_table_ c) = []
  /\ pending (routing_table_ (snd (Scenario.ConnectSuccess c)))
     = [Scenario.peer 5].
Proof.
  vm_compute. repeat split; discriminate.
Qed.

(** The hypotheses of [FindNodes_response] hold of the request for three
    nodes around 0 at the node whose table holds 1, 3, 7, 15 and 31: the
    list is the local identity, then 1, then 3. *)
Lemma FindNodes_response_witness :
  let s := Scenario.state (Scenario.request Scenario.requester
                                            Scenario.this_node
                                            Scenario.find_three) in
  let result := snd (Scenario.FindNodes s) in
  fst (Scenario.FindNodes s) = Val tt
  /\ protobuf.Message.data (message result)
     = [SerializeFindNodesResponse
          (protobuf.FindNodesResponse.mk
             [id_bytes 32; id_bytes 1; id_bytes 3]
             (Some Scenario.find_three) (Some "signature") (Some 1000))]
  /\ calls result = [call_GetClosestNodes (Scenario.id 0) 2]
  /\ (3 <= 65536 -> 2 = 3 - 1).
Proof.
  intros s result.
  exact (FindNodes_response s _ _ eq_refl eq_refl eq_refl eq_refl eq_refl).
Defined.

(** C3 fails when [num_nodes_requested - 1] does not fit 16 bits: asked
    for 65537 nodes around 5, the sample node calls [GetClosestNodes] with a
    count of 0 and answers with its own identity alone, where
    [GetClosestNodes(target, 65536)] holds the five peers of the table. *)
Lemma FindNodes_65537_counterexample :
  let s := Scenario.state (Scenario.request Scenario.requester
                                            Scenario.this_node
                                            Scenario.find_65537) in
  let result := snd (Scenario.FindNodes s) in
  let target := NodeId_of (id_bytes 5) in
  let response (nodes : list bytes) :=
    SerializeFindNodesResponse
      (protobuf.FindNodesResponse.mk nodes (Some Scenario.find_65537)
                                     (Some "signature") (Some 1000)) in
  ParseFindNodesRequest Scenario.find_65537
  = Some (protobuf.FindNodesRequest.mk 65537 (id_bytes 5))
  /\ Empty target = false
  /\ IsValid target = true
  /\ calls result = [call_GetClosestNodes target 0]
  /\ protobuf.Message.data (message result) = [response [id_bytes 32]]
  /\ map NodeId_String
         (GetClosestNodes Scenario.routing_table target (65537 - 1))
     = [id_bytes 7; id_bytes 1; id_bytes 3; id_bytes 15; id_bytes 31]
  /\ protobuf.Message.data (message result)
     <> [response
           (id_bytes 32
            :: map NodeId_String
                   (GetClosestNodes Scenario.routing_table target
                                    (65537 - 1)))].
Proof.
  vm_compute. repeat split; discriminate.
Qed.

(** The hypotheses of [Ping_reply] hold of the sample ping. *)
Lemma Ping_reply_witness :
  let s := Scenario.state Scenario.ping_request in
  Scenario.Ping s =
  (Val tt,
   with_message
     (protobuf.Message.mk
        Scenario.this_node Scenario.requester
        [SerializePingResponse
           (protobuf.PingResponse.mk (Some true) (Some "ping|999")
                                     (Some "signature") (Some 1000))]
        (Some "signature") (Some false) (Some false) (Some false) (Some 4)
        (Some 20) [])
     s).
Proof.
  intros s. exact (Ping_reply s _ _ eq_refl eq_refl eq_refl).
Defined.

(** C5.  The acknowledgement that [ConnectSuccess] sends to a responder is
    built from an empty list of close ids, whatever the routing table
    holds: here the table has five peers, all of them among the ids closest
    to this node and to the peer. *)
Theorem ConnectSuccess_ack_without_close_ids :
  let s := Scenario.state (Scenario.request Scenario.requester
                                            Scenario.this_node
                                            Scenario.success_from_responder) in
  let result := snd (Scenario.ConnectSuccess s) in
  calls result
  = [call_SendToDirect
       (ConnectSuccessAcknoledgement (Scenario.id 5) (Scenario.id 32)
                                     (Scenario.id 33) true [] false)
       (Scenario.id 5) (Scenario.id 69)]
  /\ message result = protobuf.Message.Clear
  /\ List.length (GetClosestNodes Scenario.routing_table (Scenario.id 32)
                                  Parameters_closest_nodes_size) = 5%nat
  /\ List.length (GetClosestNodes Scenario.routing_table (Scenario.id 5)
                                  Parameters_closest_nodes_size) = 5%nat.
Proof.
  vm_compute. repeat split.
Qed.

(** The hypotheses of [Connect_unspecified_endpoints] hold of a connect
    request whose two addresses are 0.0.0.0. *)
Lemma Connect_unspecified_endpoints_witness :
  let s := Scenario.state (Scenario.request Scenario.requester
                                            Scenario.this_node
                                            Scenario.connect_unspecified) in
  let result := snd (Scenario.Connect s) in
  fst (Scenario.Connect s) = Returned
  /\ message result = protobuf.Message.Clear
  /\ routing_table_ result = routing_table_ s
  /\ non_routing_table_ result = non_routing_table_ s
  /\ network_ result = network_ s
  /\ calls result = calls s.
Proof.
  intros s result.
  exact (Connect_unspecified_endpoints s _ _ eq_refl eq_refl eq_refl eq_refl).
Defined.

(** C7.  [Ping] returns from a payload that does not parse without
    clearing the envelope: the request is still in it. *)
Theorem Ping_unparsed_not_cleared :
  let s := Scenario.state Scenario.garbled_ping in
  value_or "" (protobuf.Message.destination_id (message s))
  = kKeys_identity (routing_table_ s)
  /\ ParsePingRequest "garbled" = None
  /\ Scenario.Ping s = (Returned, s)
  /\ message (snd (Scenario.Ping s)) = Scenario.garbled_ping
  /\ message (snd (Scenario.Ping s)) <> protobuf.Message.Clear.
Proof.
  vm_compute. repeat split. discriminate.
Qed.

(** C8.  [ConnectSuccess] returns from a message without [node_id]
    without clearing the envelope; it makes no call. *)
Theorem ConnectSuccess_empty_id_not_cleared :
  let s := Scenario.state (Scenario.request Scenario.requester
                                            Scenario.this_node
                                            Scenario.success_without_node_id) in
  ParseConnectSuccess Scenario.success_without_node_id
  = Some (protobuf.ConnectSuccess.mk EmptyString (id_bytes 69) true)
  /\ Empty (NodeId_of EmptyString) = true
  /\ Scenario.ConnectSuccess s = (Returned, s)
  /\ calls (snd (Scenario.ConnectSuccess s)) = []
  /\ message (snd (Scenario.ConnectSuccess s)) <> protobuf.Message.Clear.
Proof.
  vm_compute. repeat split. discriminate.
Qed.

(** The hypotheses of [relay_destination_id] hold of a [FindNodes] and of
    a connect request without [source_id]: both are answered, with the
    [destination_id] cleared. *)
Lemma relay_destination_id_witness :
  let f := Scenario.state (Scenario.request None Scenario.this_node
                                            Scenario.find_near_5) in
  let c := Scenario.state (Scenario.request None Scenario.this_node
                                            Scenario.connect_from_5) in
  (fst (Scenario.FindNodes f) = Val tt
   /\ protobuf.Message.destination_id (message (snd (Scenario.FindNodes f)))
      = None)
  /\ (fst (Scenario.Connect c) = Val tt
      /\ protobuf.Message.destination_id (message (snd (Scenario.Connect c)))
         = None).
Proof.
  intros f c. split.
  - pose proof (relay_destination_id f _ eq_refl) as H.
    destruct (proj1 H _ eq_refl eq_refl) as (Hr & _ & Hnone & _).
    exact (conj Hr (Hnone eq_refl)).
  - pose proof (relay_destination_id c _ eq_refl) as H.
    destruct (proj2 H _ true _ 0 _ _ _
                    eq_refl eq_refl eq_refl eq_refl eq_refl eq_refl)
      as (Hr & _ & Hnone & _).
    exact (conj Hr (Hnone eq_refl)).
Defined.

(** ** The further properties on the sample node *)

(** A garbled payload meets the hypotheses of [unparsed_payload_dropped]. *)
Lemma unparsed_payload_dropped_witness :
  let s := Scenario.state Scenario.garbled_ping in
  Scenario.Connect s = (Returned, with_message protobuf.Message.Clear s)
  /\ Scenario.FindNodes s = (Returned, with_message protobuf.Message.Clear s)
  /\ Scenario.ConnectSuccess s
     = (Returned, with_message protobuf.Message.Clear s).
Proof.
  intros s. pose proof (unparsed_payload_dropped s _ eq_refl) as H.
  exact (conj (proj1 H eq_refl)
              (conj (proj1 (proj2 H) eq_refl) (proj2 (proj2 H) eq_refl))).
Defined.

(** A request for no node meets the hypotheses of
    [FindNodes_rejects_invalid]. *)
Lemma FindNodes_rejects_invalid_witness :
  let s := Scenario.state (Scenario.request Scenario.requester
                                            Scenario.this_node
                                            Scenario.find_none) in
  Scenario.FindNodes s = (Returned, with_message protobuf.Message.Clear s).
Proof.
  intros s.
  exact (FindNodes_rejects_invalid s _ _ eq_refl eq_refl (or_introl eq_refl)).
Defined.

(** The [ConnectSuccess] of node 5 as requestor meets the hypotheses of
    [ConnectSuccess_adds_pending_node]. *)
Lemma ConnectSuccess_adds_pending_node_witness :
  let s := Scenario.state (Scenario.request Scenario.requester
                                            Scenario.this_node
                                            Scenario.success_from_requester) in
  Scenario.ConnectSuccess s =
  (Val tt,
   mkCtx protobuf.Message.Clear
         (AddPendingNode Scenario.routing_table (Scenario.peer 5))
         Scenario.non_routing_table Scenario.network 1000
         [call_AddPendingNode (Scenario.peer 5)]).
Proof.
  intros s.
  exact (ConnectSuccess_adds_pending_node s _ _ eq_refl eq_refl eq_refl
                                          eq_refl eq_refl).
Defined.

(** The [ConnectSuccess] of node 5 as responder meets the hypotheses of
    [ConnectSuccess_acknowledges_responder]. *)
Lemma ConnectSuccess_acknowledges_responder_witness :
  let s := Scenario.state (Scenario.request Scenario.requester
                                            Scenario.this_node
                                            Scenario.success_from_responder) in
  let ack :=
    ConnectSuccessAcknoledgement (Scenario.id 5) (Scenario.id 32)
                                 (Scenario.id 33) true [] false in
  Scenario.ConnectSuccess s =
  (Val tt,
   mkCtx protobuf.Message.Clear Scenario.routing_table
         Scenario.non_routing_table
         (SendToDirect Scenario.network ack (Scenario.id 5) (Scenario.id 69))
         1000
         [call_SendToDirect ack (Scenario.id 5) (Scenario.id 69)]).
Proof.
  intros s ack.
  exact (ConnectSuccess_acknowledges_responder s _ _ eq_refl eq_refl eq_refl
                                               eq_refl eq_refl).
Defined.

(** The connect request of node 7, which the table already holds, meets
    the hypotheses of [Connect_refused]. *)
Lemma Connect_refused_witness :
  let s := Scenario.state (Scenario.request Scenario.requester
                                            Scenario.this_node
                                            Scenario.connect_from_7) in
  let result := snd (Scenario.Connect s) in
  fst (Scenario.Connect s) = Val tt
  /\ network_ result = Scenario.network
  /\ calls result = [call_CheckNode (Scenario.peer 7)]
  /\ protobuf.Message.data (message result)
     = [SerializeConnectResponse
          (protobuf.ConnectResponse.mk
             (Some false) None (Some 1000) (Some Scenario.connect_from_7)
             (Some "signature"))].
Proof.
  intros s result. subst result.
  pose proof (Connect_refused s) as H.
  specialize (H _ _ _ eq_refl eq_refl eq_refl eq_refl eq_refl).
  unfold Scenario.Connect. rewrite H. repeat split.
Defined.

(** The connect request of node 5 at a node whose transport has no
    endpoint to offer meets the hypotheses of
    [Connect_endpoint_unavailable]. *)
Lemma Connect_endpoint_unavailable_witness :
  let s := Scenario.state_without_endpoint
             (Scenario.request Scenario.requester Scenario.this_node
                               Scenario.connect_from_5) in
  let result := snd (Scenario.Connect s) in
  fst (Scenario.Connect s) = Returned
  /\ message result = protobuf.Message.Clear
  /\ List.length (calls result) = 2%nat.
Proof.
  intros s result. subst result.
  assert (Hr : -1 <> kSuccess) by (vm_compute; discriminate).
  pose proof (Connect_endpoint_unavailable s) as H.
  specialize (H _ _ _ _ _ _ _ eq_refl eq_refl eq_refl eq_refl eq_refl
                eq_refl Hr).
  unfold Scenario.Connect. rewrite H. repeat split.
Defined.

(** The connect request of node 5 meets the hypotheses of
    [Connect_adds_connection]. *)
Lemma Connect_adds_connection_witness :
  let s := Scenario.state (Scenario.request Scenario.requester
                                            Scenario.this_node
                                            Scenario.connect_from_5) in
  let result := snd (Scenario.Connect s) in
  let pair := mkEndpointPair (Scenario.endpoint 0)
                             (Scenario.endpoint 167772162) in
  fst (Scenario.Connect s) = Val tt
  /\ connections (network_ result) = [Scenario.id 69]
  /\ calls result
     = [call_CheckNode (Scenario.peer 5);
        call_GetAvailableEndpoint (Scenario.id 69) pair;
        call_AddToRudp (Scenario.id 32) (Scenario.id 33) (Scenario.id 5)
                       (Scenario.id 69) pair false false].
Proof.
  intros s result pair. subst result.
  pose proof (Connect_adds_connection s) as H.
  specialize (H _ _ _ _ _ _ _ _ eq_refl eq_refl eq_refl eq_refl eq_refl
                eq_refl eq_refl).
  destruct H as (H1 & H2 & H3 & _).
  unfold Scenario.Connect. rewrite H1, H2, H3. repeat split.
Defined.

(** An envelope without data meets the hypotheses of the second half of
    [handlers_fault_iff]. *)
Lemma handlers_fault_iff_witness :
  let s := Scenario.state Scenario.without_data in
  Scenario.Ping s = (Fault, s)
  /\ Scenario.Connect s = (Fault, s)
  /\ Scenario.FindNodes s = (Fault, s)
  /\ Scenario.ConnectSuccess s = (Fault, s).
Proof.
  intros s. destruct (handlers_fault_iff s) as (_ & HP & HC & HF & HS).
  exact (conj (HP (conj eq_refl eq_refl))
              (conj (HC (conj eq_refl eq_refl))
                    (conj (HF eq_refl) (HS eq_refl)))).
Defined.

(** The connect request of node 5 and a [FindNodes] around 5 run to their
    end, as [reply_envelope] supposes. *)
Lemma reply_envelope_witness :
  let c := Scenario.state (Scenario.request Scenario.requester
                                            Scenario.this_node
                                            Scenario.connect_from_5) in
  let f := Scenario.state (Scenario.request Scenario.requester
                                            Scenario.this_node
                                            Scenario.find_near_5) in
  (protobuf.Message.source_id (message (snd (Scenario.Connect c)))
   = Scenario.this_node
   /\ protobuf.Message.signature (message (snd (Scenario.Connect c)))
      = Some "signature")
  /\ (protobuf.Message.source_id (message (snd (Scenario.FindNodes f)))
      = Scenario.this_node
      /\ protobuf.Message.signature (message (snd (Scenario.FindNodes f)))
         = Some "signature").
Proof.
  intros c f. split.
  - pose proof (reply_envelope c) as H.
    destruct (proj1 H eq_refl) as (_ & H1 & _ & H2 & _).
    exact (conj H1 H2).
  - pose proof (reply_envelope f) as H.
    destruct (proj2 H eq_refl) as (_ & H1 & _ & H2 & _).
    exact (conj H1 H2).
Defined.

(** A connect request without a specified endpoint and a [FindNodes] for
    no node return early, as [early_return_clears] supposes. *)
Lemma early_return_clears_witness :
  let c := Scenario.state (Scenario.request Scenario.requester
                                            Scenario.this_node
                                            Scenario.connect_unspecified) in
  let f := Scenario.state (Scenario.request Scenario.requester
                                            Scenario.this_node
                                            Scenario.find_none) in
  message (snd (Scenario.Connect c)) = protobuf.Message.Clear
  /\ message (snd (Scenario.FindNodes f)) = protobuf.Message.Clear.
Proof.
  intros c f.
  pose proof (early_return_clears c) as Hc.
  pose proof (early_return_clears f) as Hf.
  exact (conj (proj1 Hc eq_refl) (proj2 Hf eq_refl)).
Defined.

(** A [FindNodes] request addressed elsewhere is answered as the same
    request addressed to this node. *)
Lemma destination_id_ignored_witness :
  Scenario.FindNodes
    (Scenario.state (Scenario.request Scenario.requester (Some "elsewhere")
                                      Scenario.find_near_5))
  = Scenario.FindNodes
      (Scenario.state (Scenario.request Scenario.requester Scenario.this_node
                                        Scenario.find_near_5)).
Proof.
  assert (H : protobuf.Message.data
                (message (Scenario.state
                            (Scenario.request Scenario.requester
                                              Scenario.this_node
                                              Scenario.find_near_5)))
              <> [])
    by (vm_compute; discriminate).
  exact (proj2 (proj1 (destination_id_ignored
                         (Scenario.state
                            (Scenario.request Scenario.requester
                                              Scenario.this_node
                                              Scenario.find_near_5))
                         (Some "elsewhere"))) H).
Defined.

(** A ping without [source_id] meets the hypotheses of
    [Ping_reply_to_relayed]. *)
Lemma Ping_reply_to_relayed_witness :
  let s := Scenario.state (Scenario.request None Scenario.this_node
                                            "ping|999") in
  fst (Scenario.Ping s) = Val tt
  /\ protobuf.Message.destination_id (message (snd (Scenario.Ping s)))
     = Some EmptyString.
Proof.
  intros s.
  exact (Ping_reply_to_relayed s _ _ eq_refl eq_refl eq_refl eq_refl).
Defined.

(** The connect request of node 5 sent as a client meets the hypotheses
    of [Connect_admission_calls]: the client table is tested against the
    furthest peer of the table, 31. *)
Lemma Connect_admission_calls_witness :
  let s := Scenario.state Scenario.client_connect in
  exists rest,
    calls (snd (Scenario.Connect s))
    = [call_GetNthClosestNode (Scenario.id 32) 8;
       call_NonRoutingTable_CheckNode (Scenario.peer 5) (Scenario.id 31)]
      ++ rest.
Proof.
  intros s.
  pose proof (Connect_admission_calls s) as H.
  specialize (H _ _ eq_refl eq_refl eq_refl eq_refl).
  destruct H as (rest & H & _).
  exists rest. exact H.
Defined.
